(** * gemini_adapter: a shallow embedding of [python/gemini_adapter.py]

    The adapter is a one-shot script: it reads a JSON request on standard
    input, checks two fields, joins the message contents into a prompt,
    calls [GeminiClient.generate_content] once and prints one JSON object.

    The embedding has three layers.
    - [Py]: the Python values [json.loads] produces and the builtins the
      script applies to them ([bool], [str], [dict.get], subscription,
      iteration), each with the exception it raises.
    - [Proc]: a small monad for a running script: a log of observable
      events, [sys.exit], and propagating exceptions with [try]/[except].
    - the script itself, statement by statement, and the process around it
      (an uncaught exception becomes a traceback on stderr and status 1). *)

From Stdlib Require Import ZArith List String Ascii Bool Lia.
From Stdlib Require Import SpecFloat DecimalString.
Import ListNotations.
Local Open Scope string_scope.
Set Warnings "-register-all".

(** ** Python values and builtins *)

Module Py.

(** What [json.loads] returns: [None], [bool], [int], [float], [str],
    [list] and [dict] with [str] keys.  A [dict] keeps insertion order, so
    it is an association list; [json.loads] leaves no duplicate key. *)
Inductive pyval : Type :=
| PNone
| PBool (b : bool)
| PInt (n : Z)
| PFloat (f : spec_float)
| PStr (s : string)
| PList (l : list pyval)
| PDict (d : list (string * pyval)).

(** An exception instance, as far as the script looks at it:
    [type(e).__name__] and [str(e)]. *)
Record py_exn : Type := Exn { exn_type : string; exn_str : string }.

(** A builtin either returns or raises. *)
Inductive exc (A : Type) : Type :=
| Ok (a : A)
| Err (e : py_exn).
Arguments Ok {A} a.
Arguments Err {A} e.

Definition newline : string := String (ascii_of_nat 10) EmptyString.

(** [type(v).__name__] *)
Definition type_name (v : pyval) : string :=
  match v with
  | PNone => "NoneType"
  | PBool _ => "bool"
  | PInt _ => "int"
  | PFloat _ => "float"
  | PStr _ => "str"
  | PList _ => "list"
  | PDict _ => "dict"
  end.

Definition is_dict (v : pyval) : bool :=
  match v with PDict _ => true | _ => false end.

(** [bool(v)]: the test behind [if v] and [not v]. *)
Definition truthy (v : pyval) : bool :=
  match v with
  | PNone => false
  | PBool b => b
  | PInt n => negb (n =? 0)%Z
  | PFloat (S754_zero _) => false
  | PFloat _ => true
  | PStr s => negb (s =? "")
  | PList l => match l with [] => false | _ :: _ => true end
  | PDict d => match d with [] => false | _ :: _ => true end
  end.

(** [a or b] *)
Definition or_ (a b : pyval) : pyval := if truthy a then a else b.

(** Key lookup in a [dict]. *)
Fixpoint lookup (key : string) (d : list (string * pyval)) : option pyval :=
  match d with
  | [] => None
  | (k, v) :: rest => if k =? key then Some v else lookup key rest
  end.

Definition AttributeError (v : pyval) (attr : string) : py_exn :=
  Exn "AttributeError"
      ("'" ++ type_name v ++ "' object has no attribute '" ++ attr ++ "'").

(** [obj.get(key, default)]; only a [dict] has the method. *)
Definition get (obj : pyval) (key : string) (default : pyval) : exc pyval :=
  match obj with
  | PDict d =>
      match lookup key d with
      | Some v => Ok v
      | None => Ok default
      end
  | _ => Err (AttributeError obj "get")
  end.

(** [obj[key]] with a [str] key. *)
Definition getitem (obj : pyval) (key : string) : exc pyval :=
  match obj with
  | PDict d =>
      match lookup key d with
      | Some v => Ok v
      | None => Err (Exn "KeyError" ("'" ++ key ++ "'"))
      end
  | PList _ =>
      Err (Exn "TypeError" "list indices must be integers or slices, not str")
  | PStr _ =>
      Err (Exn "TypeError" "string indices must be integers, not 'str'")
  | _ =>
      Err (Exn "TypeError" ("'" ++ type_name obj ++ "' object is not subscriptable"))
  end.

Fixpoint chars (s : string) : list pyval :=
  match s with
  | EmptyString => []
  | String c rest => PStr (String c EmptyString) :: chars rest
  end.

(** The items a [for] loop visits: the elements of a [list], the
    characters of a [str], the keys of a [dict]. *)
Definition iter (obj : pyval) : exc (list pyval) :=
  match obj with
  | PList l => Ok l
  | PStr s => Ok (chars s)
  | PDict d => Ok (map (fun kv => PStr (fst kv)) d)
  | _ => Err (Exn "TypeError" ("'" ++ type_name obj ++ "' object is not iterable"))
  end.

(** [str(v)].  The digits of a [float] and the quoting of a [str] inside a
    container are the interpreter's; they are taken as given. *)
Section Str.
Variable float_repr : spec_float -> string.
Variable str_repr : string -> string.

Fixpoint repr (v : pyval) : string :=
  match v with
  | PNone => "None"
  | PBool true => "True"
  | PBool false => "False"
  | PInt n => NilZero.string_of_int (Z.to_int n)
  | PFloat f => float_repr f
  | PStr s => str_repr s
  | PList l => "[" ++ String.concat ", " (map repr l) ++ "]"
  | PDict d =>
      "{" ++ String.concat ", "
               (map (fun kv => str_repr (fst kv) ++ ": " ++ repr (snd kv)) d)
          ++ "}"
  end.

Definition str (v : pyval) : string :=
  match v with
  | PStr s => s
  | _ => repr v
  end.
End Str.

End Py.

(** ** A running script *)

Module Proc.
Import Py.

Inductive stream : Type := Stdout | Stderr.

(** The client class the script imports, with its one use folded into a
    function: [GeminiClient(Secure_1PSID, Secure_1PSIDTS)] followed by
    [generate_content(prompt, model=...)].  The call either returns a
    response, of which the script reads [text] and, when there is one, the
    attribute [model], or raises an [Exception], the class the [except]
    clause of [call_gemini] names.  A call that never returns is not
    modelled: the script sets no timeout and would wait with it. *)
Record response : Type := Response { text : string; model : option pyval }.

Inductive delegate_outcome : Type :=
| Returns (r : response)
| Raises (e : py_exn).

Definition client : Type := pyval -> pyval -> string -> pyval -> delegate_outcome.

(** What an observer of the process sees, in order: a call to the client
    with its four arguments, [print(json.dumps(obj), file=file)], and the
    interpreter's traceback for an exception nothing caught. *)
Inductive event : Type :=
| Invoked (secure_psid secure_psidts : pyval) (user_prompt : string) (model_name : pyval)
| Printed (file : stream) (obj : pyval)
| Traceback (e : py_exn).

(** How a statement ends: normally, in [sys.exit], or raising. *)
Inductive signal (A : Type) : Type :=
| Normal (a : A)
| Exited (code : Z)
| Raised (e : py_exn).
Arguments Normal {A} a.
Arguments Exited {A} code.
Arguments Raised {A} e.

Definition proc (A : Type) : Type := list event -> signal A * list event.

Definition ret {A} (a : A) : proc A := fun log => (Normal a, log).

Definition bind {A B} (m : proc A) (k : A -> proc B) : proc B :=
  fun log =>
    match m log with
    | (Normal a, log') => k a log'
    | (Exited c, log') => (Exited c, log')
    | (Raised e, log') => (Raised e, log')
    end.

Notation "x <- m ;; k" := (bind m (fun x => k))
  (at level 61, m at next level, right associativity).
Notation "m ;;; k" := (bind m (fun _ => k))
  (at level 61, right associativity).

(** [sys.exit(code)] *)
Definition sys_exit {A} (code : Z) : proc A := fun log => (Exited code, log).

(** A builtin run as a statement. *)
Definition lift {A} (r : exc A) : proc A :=
  fun log =>
    match r with
    | Ok a => (Normal a, log)
    | Err e => (Raised e, log)
    end.

(** [print(json.dumps(obj), file=file)] *)
Definition print_json (file : stream) (obj : pyval) : proc unit :=
  fun log => (Normal tt, (log ++ [Printed file obj])%list).

(** [try: body / except Exception as e: handler e].  [sys.exit] inside the
    body is not an [Exception] and passes through. *)
Definition try_except {A} (body : proc A) (handler : py_exn -> proc A) : proc A :=
  fun log =>
    match body log with
    | (Raised e, log') => handler e log'
    | other => other
    end.

(** [if cond: body] *)
Definition when (cond : bool) (body : proc unit) : proc unit :=
  if cond then body else ret tt.

(** [for x in items: s = body x s] *)
Fixpoint for_in {S} (items : list pyval) (body : pyval -> S -> proc S) (s : S) : proc S :=
  match items with
  | [] => ret s
  | x :: rest => s' <- body x s ;; for_in rest body s'
  end.

(** The one external call. *)
Definition invoke (c : client) (secure_psid secure_psidts : pyval)
    (user_prompt : string) (model_name : pyval) : proc response :=
  fun log =>
    let log' := (log ++ [Invoked secure_psid secure_psidts user_prompt model_name])%list in
    match c secure_psid secure_psidts user_prompt model_name with
    | Returns r => (Normal r, log')
    | Raises e => (Raised e, log')
    end.

End Proc.

(** ** The script *)

Import Py Proc.

(** Everything the script takes from outside its own text: the
    interpreter's [repr] of floats and strings, standard input, the JSON
    parser, and the [gemini_webapi] package ([None] when it cannot be
    imported). *)
Record runtime : Type := Runtime {
  float_repr : spec_float -> string;
  str_repr : string -> string;
  stdin_read : exc string;
  json_loads : string -> exc pyval;
  gemini_webapi : option client
}.

(** The two shapes of the printed object, as the script's dict literals
    spell them. *)
Definition failure (type message : string) : pyval :=
  PDict [("success", PBool false);
         ("error", PDict [("type", PStr type); ("message", PStr message)])].

Definition success (text_content : string) (model_used : pyval) : pyval :=
  PDict [("success", PBool true);
         ("text", PStr text_content);
         ("model_used", model_used)].

(** Lines 6-14: the import, with its [except ImportError]. *)
Definition import_gemini (rt : runtime) : proc client :=
  match gemini_webapi rt with
  | Some GeminiClient => ret GeminiClient
  | None =>
      print_json Stderr
        (failure "ImportError"
           "Failed to import gemini_webapi. Make sure it's installed in the Python environment.") ;;;
      sys_exit 1
  end.

(** Lines 17-34: read and parse standard input. *)
Definition read_params (rt : runtime) : proc pyval :=
  try_except
    (input_data <- lift (stdin_read rt) ;;
     lift (json_loads rt input_data))
    (fun e =>
       if exn_type e =? "JSONDecodeError" then
         print_json Stderr
           (failure "JSONDecodeError" ("Failed to decode stdin JSON: " ++ exn_str e)) ;;;
         sys_exit 1
       else
         print_json Stderr
           (failure (exn_type e) ("Error reading stdin: " ++ exn_str e)) ;;;
         sys_exit 1).

(** Lines 59-62: the loop that collects the contents. *)
Definition collect_content (rt : runtime) (msg : pyval) (prompt_parts : list string)
    : proc (list string) :=
  content <- lift (get msg "content" PNone) ;;
  if truthy content then
    v <- lift (getitem msg "content") ;;
    ret (prompt_parts ++ [str (float_repr rt) (str_repr rt) v])%list
  else
    ret prompt_parts.

Definition build_prompt_parts (rt : runtime) (messages : pyval) : proc (list string) :=
  items <- lift (iter messages) ;;
  for_in items (collect_content rt) [].

(** Lines 75-106: [call_gemini]. *)
Definition call_gemini (GeminiClient : client)
    (secure_psid secure_psidts : pyval) (user_prompt : string) (model_name : pyval)
    : proc pyval :=
  try_except
    (response <- invoke GeminiClient secure_psid (or_ secure_psidts PNone)
                   user_prompt model_name ;;
     let text_content := text response in
     let model_used :=
       match model response with
       | Some m => m
       | None => model_name
       end in
     ret (success text_content model_used))
    (fun e => ret (failure (exn_type e) (exn_str e))).

(** Lines 59-64: the prompt. *)
Definition build_prompt (rt : runtime) (messages : pyval) : proc string :=
  prompt_parts <- build_prompt_parts rt messages ;;
  ret (String.concat newline prompt_parts).

(** Lines 37-121: everything after the request is parsed. *)
Definition serve (rt : runtime) (GeminiClient : client) (params : pyval) : proc unit :=
  psid <- lift (get params "psid" PNone) ;;
  psidts <- lift (get params "psidts" PNone) ;;
  model_requested <- lift (get params "model" (PStr "unspecified")) ;;
  messages <- lift (get params "messages" PNone) ;;
  when (negb (truthy psid))
    (print_json Stderr
       (failure "ValueError" "Missing 'psid' in input parameters.") ;;;
     sys_exit 1) ;;;
  when (negb (truthy messages))
    (print_json Stderr
       (failure "ValueError" "Missing or empty 'messages' array in input parameters.") ;;;
     sys_exit 1) ;;;
  prompt <- build_prompt rt messages ;;
  when (negb (truthy (PStr prompt)))
    (print_json Stderr
       (failure "ValueError" "Could not construct a non-empty prompt from messages.") ;;;
     sys_exit 1) ;;;
  result <- call_gemini GeminiClient psid psidts prompt model_requested ;;
  ok <- lift (get result "success" PNone) ;;
  if truthy ok then
    print_json Stdout result ;;; sys_exit 0
  else
    print_json Stderr result ;;; sys_exit 1.

(** The whole module, run as [__main__]. *)
Definition script (rt : runtime) : proc unit :=
  GeminiClient <- import_gemini rt ;;
  params <- read_params rt ;;
  serve rt GeminiClient params.

(** ** The process *)

Record process_result : Type := Finished { events : list event; exit_code : Z }.

(** The interpreter around the script: falling off the end is status 0,
    [sys.exit(c)] is status [c], an uncaught exception prints a traceback
    on stderr and is status 1. *)
Definition run (rt : runtime) : process_result :=
  match script rt [] with
  | (Normal _, log) => Finished log 0
  | (Exited code, log) => Finished log code
  | (Raised e, log) => Finished (log ++ [Traceback e]) 1
  end.

(** What ended up on each stream. *)
Inductive chunk : Type :=
| JsonText (obj : pyval)
| TracebackText (e : py_exn).

Fixpoint written (file : stream) (log : list event) : list chunk :=
  match log with
  | [] => []
  | Printed Stdout obj :: rest =>
      match file with
      | Stdout => JsonText obj :: written file rest
      | Stderr => written file rest
      end
  | Printed Stderr obj :: rest =>
      match file with
      | Stdout => written file rest
      | Stderr => JsonText obj :: written file rest
      end
  | Traceback e :: rest =>
      match file with
      | Stdout => written file rest
      | Stderr => TracebackText e :: written file rest
      end
  | Invoked _ _ _ _ :: rest => written file rest
  end.

(** The calls made to the external client, with their arguments. *)
Fixpoint invocations (log : list event) : list (pyval * pyval * string * pyval) :=
  match log with
  | [] => []
  | Invoked a b c d :: rest => (a, b, c, d) :: invocations rest
  | _ :: rest => invocations rest
  end.

(** ** Worked inputs

    A runtime whose standard input parses to a given request and whose
    client is scripted.  None of the worked inputs prints a float or quotes
    a string, so the two [repr] fields are placeholders. *)

Definition scripted_runtime (parsed : exc pyval) (c : option client) : runtime :=
  Runtime (fun _ => "nan") (fun s => "'" ++ s ++ "'") (Ok "<stdin>") (fun _ => parsed) c.

Definition replies (r : response) : client := fun _ _ _ _ => Returns r.
Definition fails_with (e : py_exn) : client := fun _ _ _ _ => Raises e.

Definition msg_a : pyval := PDict [("content", PStr "a")].
Definition msg_b : pyval := PDict [("content", PStr "b")].
Definition msg_empty : pyval := PDict [].

Definition request_ab : pyval :=
  PDict [("psid", PStr "cookie"); ("model", PStr "gemini-pro");
         ("messages", PList [msg_a; msg_empty; msg_b])].

Definition request_no_content : pyval :=
  PDict [("psid", PStr "cookie"); ("messages", PList [msg_empty])].

Definition request_no_psid : pyval :=
  PDict [("psid", PStr ""); ("messages", PList [msg_a])].

Definition request_no_messages : pyval :=
  PDict [("psid", PStr "cookie"); ("messages", PList [])].

Definition request_number_message : pyval :=
  PDict [("psid", PStr "cookie"); ("messages", PList [PInt 42])].

Definition request_string_messages : pyval :=
  PDict [("psid", PStr "cookie"); ("messages", PStr "hi")].

Definition request_ab_empty_psidts : pyval :=
  PDict [("psid", PStr "cookie"); ("psidts", PStr ""); ("model", PStr "gemini-pro");
         ("messages", PList [msg_a; msg_empty; msg_b])].

Definition hello : response := Response "hello" None.
Definition auth_error : py_exn := Exn "AuthError" "bad cookie".
Definition truncated : py_exn :=
  Exn "JSONDecodeError" "Expecting value: line 1 column 10 (char 9)".

(** ** Vocabulary of the statements *)

(** The content a message has: the value under ["content"] that passes the
    loop's test [if msg.get('content')]. *)
Definition content_of (msg : pyval) : option pyval :=
  match msg with
  | PDict d =>
      match lookup "content" d with
      | Some v => if truthy v then Some v else None
      | None => None
      end
  | _ => None
  end.

(** The contents of the messages that have one, in input order. *)
Fixpoint contents (messages : list pyval) : list pyval :=
  match messages with
  | [] => []
  | msg :: rest =>
      match content_of msg with
      | Some v => v :: contents rest
      | None => contents rest
      end
  end.

(** The prompt as the specification words it: the newline-join of the
    string forms of those contents. *)
Definition joined_contents (rt : runtime) (messages : list pyval) : string :=
  String.concat newline (map (str (float_repr rt) (str_repr rt)) (contents messages)).

Definition all_dicts (l : list pyval) : Prop := Forall (fun m => is_dict m = true) l.

(** A content that is there, is not null and is not empty, in the words of
    the prompt builder's contract. *)
Definition present_nonnull_nonempty (v : pyval) : Prop :=
  v <> PNone /\ v <> PStr "" /\ v <> PList [] /\ v <> PDict [].

(** The claim of the builder's contract, word for word: every content that
    is present, not null and not empty is appended to the accumulator. *)
Definition appends_every_present_content : Prop :=
  forall (rt : runtime) (d : list (string * pyval)) (c : pyval)
         (acc : list string) (log : list event),
    lookup "content" d = Some c ->
    present_nonnull_nonempty c ->
    collect_content rt (PDict d) acc log =
    (Normal (acc ++ [str (float_repr rt) (str_repr rt) c])%list, log).

(** The value [params.get(key, default)] yields on a request object. *)
Definition field (d : list (string * pyval)) (key : string) (default : pyval) : pyval :=
  match lookup key d with
  | Some v => v
  | None => default
  end.

(** Standard input is read and parses to [params]. *)
Definition receives (rt : runtime) (params : pyval) : Prop :=
  exists input_data,
    stdin_read rt = Ok input_data /\ json_loads rt input_data = Ok params.

(** A well-formed request: a non-empty [psid] and a non-empty [messages]
    list of mappings. *)
Definition well_formed (d : list (string * pyval)) : Prop :=
  truthy (field d "psid" PNone) = true /\
  exists l, lookup "messages" d = Some (PList l) /\ l <> [] /\ all_dicts l.

(** Exactly one JSON object, the success variant, on stdout and nothing on
    stderr; and the mirror image for the failure variant. *)
Definition emits_success (r : process_result) : Prop :=
  exists text_content model_used,
    written Stdout (events r) = [JsonText (success text_content model_used)] /\
    written Stderr (events r) = [].

Definition emits_failure (r : process_result) : Prop :=
  exists type message,
    written Stderr (events r) = [JsonText (failure type message)] /\
    written Stdout (events r) = [].

(** A field counts as missing when it is absent or falsy (null, an empty
    string, an empty sequence). *)
Definition missing (d : list (string * pyval)) (key : string) : Prop :=
  truthy (field d key PNone) = false.

(** The request passes both presence checks and its messages yield the
    non-empty [prompt]: the script reaches the external call. *)
Definition accepted (rt : runtime) (d : list (string * pyval)) (prompt : string) : Prop :=
  truthy (field d "psid" PNone) = true /\
  truthy (field d "messages" PNone) = true /\
  build_prompt rt (field d "messages" PNone) [] = (Normal prompt, []) /\
  prompt <> "".

(** Two requests that are the same but for the key ["psidts"]. *)
Definition same_but_psidts (d1 d2 : list (string * pyval)) : Prop :=
  forall key, key <> "psidts" -> lookup key d1 = lookup key d2.

(** Two runtimes that differ in nothing but what standard input holds. *)
Definition same_environment (rt1 rt2 : runtime) : Prop :=
  float_repr rt1 = float_repr rt2 /\
  str_repr rt1 = str_repr rt2 /\
  gemini_webapi rt1 = gemini_webapi rt2.

(** The process wrote one JSON object on one stream, and its status says
    which. *)
Definition single_object (r : process_result) : Prop :=
  (emits_success r \/ emits_failure r) /\
  ~ (emits_success r /\ emits_failure r) /\
  (exit_code r = 0%Z <-> emits_success r) /\
  (exit_code r = 1%Z <-> emits_failure r).

(** A [messages] value that passes the emptiness check and still holds
    something that is not a mapping: a list with such an element, or a
    non-empty string (whose items are its characters). *)
Definition has_non_mapping (messages : pyval) : Prop :=
  (exists l, messages = PList l /\ Exists (fun m => is_dict m = false) l) \/
  (exists s, messages = PStr s /\ s <> "").

(** The four ways a run can end: one failure object and no call; a
    traceback and no call; one call and then a failure object; one call and
    then the success object. *)
Inductive ending : process_result -> Prop :=
| EndsRejected (type message : string) :
    ending (Finished [Printed Stderr (failure type message)] 1)
| EndsCrashed (e : py_exn) :
    exn_type e = "AttributeError" \/ exn_type e = "TypeError" ->
    ending (Finished [Traceback e] 1)
| EndsFailed (a b : pyval) (p : string) (m : pyval) (type message : string) :
    ending (Finished [Invoked a b p m; Printed Stderr (failure type message)] 1)
| EndsSucceeded (a b : pyval) (p : string) (m : pyval)
    (text_content : string) (model_used : pyval) :
    ending (Finished [Invoked a b p m;
                      Printed Stdout (success text_content model_used)] 0).

(** Reading standard input or parsing it raised [e]. *)
Definition read_raises (rt : runtime) (e : py_exn) : Prop :=
  stdin_read rt = Err e \/
  exists input_data, stdin_read rt = Ok input_data /\ json_loads rt input_data = Err e.

(** The failure object the two [except] clauses around the read print. *)
Definition read_failure (e : py_exn) : pyval :=
  if exn_type e =? "JSONDecodeError" then
    failure "JSONDecodeError" ("Failed to decode stdin JSON: " ++ exn_str e)
  else
    failure (exn_type e) ("Error reading stdin: " ++ exn_str e).

(** Two requests that agree on everything the script looks at: the three
    fields it passes on and [psidts or None]. *)
Definition same_fields (d1 d2 : list (string * pyval)) : Prop :=
  lookup "psid" d1 = lookup "psid" d2 /\
  lookup "model" d1 = lookup "model" d2 /\
  lookup "messages" d1 = lookup "messages" d2 /\
  or_ (field d1 "psidts" PNone) PNone = or_ (field d2 "psidts" PNone) PNone.

Definition request_list : pyval := PList [PStr "cookie"].

Definition request_number_messages : pyval :=
  PDict [("psid", PStr "cookie"); ("messages", PInt 7)].

Definition request_keyed_messages : pyval :=
  PDict [("psid", PStr "cookie"); ("messages", PDict [("content", PStr "a")])].

Definition request_ab_reordered : pyval :=
  PDict [("messages", PList [msg_a; msg_empty; msg_b]); ("stream", PBool true);
         ("psidts", PInt 0); ("model", PStr "gemini-pro"); ("psid", PStr "cookie")].

Definition unicode_error : py_exn :=
  Exn "UnicodeDecodeError" "'utf-8' codec can't decode byte 0xff in position 0: invalid start byte".

(** ** Valid JSON

    What the specification means by a payload that is valid JSON: the
    grammar of RFC 8259, as a recognizer.  Each parser consumes a prefix and
    returns the rest; [value] skips leading white space, and [elements] and
    [members] read the inside of an array and of an object.  The fuel bounds
    the number of nested and repeated values, which the length of the text
    bounds in turn. *)

Module Json.
Local Open Scope nat_scope.

Definition code (c : ascii) : nat := nat_of_ascii c.

(** ws: space, tab, line feed, carriage return *)
Definition is_ws (c : ascii) : bool :=
  (code c =? 32) || (code c =? 9) || (code c =? 10) || (code c =? 13).

Definition is_digit (c : ascii) : bool := (48 <=? code c) && (code c <=? 57).

Definition is_hex (c : ascii) : bool :=
  is_digit c || ((65 <=? code c) && (code c <=? 70))
             || ((97 <=? code c) && (code c <=? 102)).

Fixpoint skip_ws (s : string) : string :=
  match s with
  | String c rest => if is_ws c then skip_ws rest else s
  | EmptyString => s
  end.

Fixpoint skip_digits (s : string) : string :=
  match s with
  | String c rest => if is_digit c then skip_digits rest else s
  | EmptyString => s
  end.

Fixpoint strip_prefix (p s : string) : option string :=
  match p with
  | EmptyString => Some s
  | String a p' =>
      match s with
      | String b s' => if Ascii.eqb a b then strip_prefix p' s' else None
      | EmptyString => None
      end
  end.

(** 1*DIGIT *)
Definition digits1 (s : string) : option string :=
  match s with
  | String c rest => if is_digit c then Some (skip_digits rest) else None
  | EmptyString => None
  end.

(** int = zero / ( digit1-9 *DIGIT ) *)
Definition int_part (s : string) : option string :=
  match s with
  | String c rest =>
      if code c =? 48 then Some rest
      else if is_digit c then Some (skip_digits rest)
      else None
  | EmptyString => None
  end.

(** [ frac ], frac = decimal-point 1*DIGIT *)
Definition frac_part (s : string) : option string :=
  match s with
  | String c rest => if code c =? 46 then digits1 rest else Some s
  | EmptyString => Some s
  end.

(** [ exp ], exp = e [ minus / plus ] 1*DIGIT *)
Definition exp_part (s : string) : option string :=
  match s with
  | String c rest =>
      if (code c =? 101) || (code c =? 69) then
        match rest with
        | String sign rest' =>
            if (code sign =? 43) || (code sign =? 45) then digits1 rest'
            else digits1 rest
        | EmptyString => None
        end
      else Some s
  | EmptyString => Some s
  end.

(** number = [ minus ] int [ frac ] [ exp ] *)
Definition number (s : string) : option string :=
  let unsigned :=
    match s with
    | String c rest => if code c =? 45 then rest else s
    | EmptyString => s
    end in
  match int_part unsigned with
  | Some r =>
      match frac_part r with
      | Some r' => exp_part r'
      | None => None
      end
  | None => None
  end.

(** The characters that may follow a backslash, [u] apart: quotation
    mark, backslash, slash, b, f, n, r, t. *)
Definition is_escape (c : ascii) : bool :=
  (code c =? 34) || (code c =? 92) || (code c =? 47) || (code c =? 98) ||
  (code c =? 102) || (code c =? 110) || (code c =? 114) || (code c =? 116).

(** A string after its opening quotation mark (34): unescaped characters
    from 32 up, escapes after a backslash (92), up to the closing mark. *)
Fixpoint string_body (s : string) : option string :=
  match s with
  | EmptyString => None
  | String c rest =>
      if code c =? 34 then Some rest
      else if code c =? 92 then
        match rest with
        | String e rest' =>
            if is_escape e then string_body rest'
            else if code e =? 117 then
              match rest' with
              | String h1 (String h2 (String h3 (String h4 rest''))) =>
                  if is_hex h1 && is_hex h2 && is_hex h3 && is_hex h4
                  then string_body rest'' else None
              | _ => None
              end
            else None
        | EmptyString => None
        end
      else if code c <? 32 then None
      else string_body rest
  end.

(** value = object (123 ... 125) / array (91 ... 93) / string / true /
    false / null / number; 44 is the comma and 58 the colon. *)
Fixpoint value (fuel : nat) (s : string) {struct fuel} : option string :=
  match fuel with
  | O => None
  | S fuel' =>
      match skip_ws s with
      | EmptyString => None
      | String c rest =>
          if code c =? 123 then
            match skip_ws rest with
            | String c' rest' => if code c' =? 125 then Some rest' else members fuel' rest
            | EmptyString => None
            end
          else if code c =? 91 then
            match skip_ws rest with
            | String c' rest' => if code c' =? 93 then Some rest' else elements fuel' rest
            | EmptyString => None
            end
          else if code c =? 34 then string_body rest
          else if code c =? 116 then strip_prefix "rue" rest
          else if code c =? 102 then strip_prefix "alse" rest
          else if code c =? 110 then strip_prefix "ull" rest
          else number (String c rest)
      end
  end
with elements (fuel : nat) (s : string) {struct fuel} : option string :=
  match fuel with
  | O => None
  | S fuel' =>
      match value fuel' s with
      | Some r =>
          match skip_ws r with
          | String c rest =>
              if code c =? 44 then elements fuel' rest
              else if code c =? 93 then Some rest
              else None
          | EmptyString => None
          end
      | None => None
      end
  end
with members (fuel : nat) (s : string) {struct fuel} : option string :=
  match fuel with
  | O => None
  | S fuel' =>
      match skip_ws s with
      | String q r =>
          if code q =? 34 then
            match string_body r with
            | Some r1 =>
                match skip_ws r1 with
                | String colon r2 =>
                    if code colon =? 58 then
                      match value fuel' r2 with
                      | Some r3 =>
                          match skip_ws r3 with
                          | String c r4 =>
                              if code c =? 44 then members fuel' r4
                              else if code c =? 125 then Some r4
                              else None
                          | EmptyString => None
                          end
                      | None => None
                      end
                    else None
                | EmptyString => None
                end
            | None => None
            end
          else None
      | EmptyString => None
      end
  end.

(** JSON-text = ws value ws *)
Definition valid (s : string) : bool :=
  match value (2 * String.length s + 2) s with
  | Some rest =>
      match skip_ws rest with
      | EmptyString => true
      | String _ _ => false
      end
  | None => false
  end.

End Json.

(** A payload that is not valid JSON and that [json.loads] accepts all the
    same: Python's parser reads the literal [NaN] as the float nan. *)
Definition quoted (s : string) : string :=
  String (ascii_of_nat 34) (s ++ String (ascii_of_nat 34) EmptyString).

Definition nan_payload : string :=
  "{" ++ quoted "psid" ++ ": NaN, " ++ quoted "messages" ++ ": [{"
      ++ quoted "content" ++ ": " ++ quoted "a" ++ "}]}".

Definition cookie_payload : string :=
  "{" ++ quoted "psid" ++ ": " ++ quoted "cookie" ++ ", " ++ quoted "messages" ++ ": [{"
      ++ quoted "content" ++ ": " ++ quoted "a" ++ "}]}".

Definition nan_request : pyval :=
  PDict [("psid", PFloat S754_nan); ("messages", PList [msg_a])].

Definition nan_runtime : runtime :=
  Runtime (fun _ => "nan") (fun s => "'" ++ s ++ "'") (Ok nan_payload)
    (fun _ => Ok nan_request) (Some (replies hello)).

(** The claim about invalid payloads, word for word: whenever the text on
    standard input is not valid JSON, the run is one [JSONDecodeError]
    failure object on stderr with status 1. *)
Definition rejects_every_invalid_payload : Prop :=
  forall (rt : runtime) (GeminiClient : client) (input_data : string),
    gemini_webapi rt = Some GeminiClient ->
    stdin_read rt = Ok input_data ->
    Json.valid input_data = false ->
    exists message,
      run rt = Finished [Printed Stderr (failure "JSONDecodeError" message)] 1.

(** ** The prompt builder *)

Ltac step :=
  unfold bind, lift, ret, when, sys_exit, print_json, try_except, invoke; simpl.

Lemma collect_content_dict (rt : runtime) (d : list (string * pyval))
    (acc : list string) (log : list event) :
  collect_content rt (PDict d) acc log =
  (Normal (acc ++ map (str (float_repr rt) (str_repr rt)) (contents [PDict d]))%list, log).
Proof.
  unfold collect_content; step.
  destruct (lookup "content" d) as [v|] eqn:E; step.
  - destruct (truthy v); step.
    + reflexivity.
    + now rewrite app_nil_r.
  - now rewrite app_nil_r.
Qed.

(** For a message without the key, and for one whose content is a string,
    having content is what it sounds like: the key is there and the string
    is not empty. *)
Lemma content_of_absent (d : list (string * pyval)) :
  lookup "content" d = None -> content_of (PDict d) = None.
Proof. intros H. simpl. now rewrite H. Qed.

Lemma content_of_string (d : list (string * pyval)) (s : string) :
  lookup "content" d = Some (PStr s) ->
  content_of (PDict d) = if s =? "" then None else Some (PStr s).
Proof. intros H. simpl. rewrite H. simpl. now destruct (s =? ""). Qed.

Lemma contents_cons (msg : pyval) (rest : list pyval) :
  contents (msg :: rest) = (contents [msg] ++ contents rest)%list.
Proof. simpl. destruct (content_of msg); reflexivity. Qed.

Lemma for_in_dicts (rt : runtime) (l : list pyval) :
  all_dicts l ->
  forall acc log,
    for_in l (collect_content rt) acc log =
    (Normal (acc ++ map (str (float_repr rt) (str_repr rt)) (contents l))%list, log).
Proof.
  induction 1 as [|msg rest Hd _ IH]; intros acc log.
  - simpl. unfold ret. now rewrite app_nil_r.
  - destruct msg; try discriminate Hd.
    cbn [for_in]. unfold bind. rewrite collect_content_dict, IH.
    rewrite (contents_cons (PDict d) rest), map_app, app_assoc. reflexivity.
Qed.

Lemma build_prompt_dicts (rt : runtime) (l : list pyval) (log : list event) :
  all_dicts l ->
  build_prompt rt (PList l) log = (Normal (joined_contents rt l), log).
Proof.
  intros H. unfold build_prompt, build_prompt_parts; step.
  rewrite (for_in_dicts rt l H). reflexivity.
Qed.

(** C5. For every sequence of messages (each a mapping), the prompt the
    script builds is the newline-join, in input order, of the string forms
    of the contents of the messages that have one; messages without
    content are skipped and nothing is printed or raised on the way. *)
Theorem prompt_is_joined_contents (rt : runtime) (l : list pyval) (log : list event) :
  all_dicts l ->
  build_prompt rt (PList l) log = (Normal (joined_contents rt l), log).
Proof. apply build_prompt_dicts. Qed.

Lemma prompt_is_joined_contents_witness :
  all_dicts [msg_a; msg_empty; msg_b] /\
  build_prompt (scripted_runtime (Ok request_ab) None)
    (PList [msg_a; msg_empty; msg_b]) [] =
  (Normal ("a" ++ newline ++ "b"), []).
Proof.
  split.
  - repeat constructor.
  - apply (prompt_is_joined_contents
             (scripted_runtime (Ok request_ab) None) [msg_a; msg_empty; msg_b] []).
    repeat constructor.
Defined.

(** C8, as stated, fails: a content of [0] (or [False]) is present, is not
    null and is not empty, and the loop's truth test drops it. *)
Lemma zero_content_is_not_appended : ~ appends_every_present_content.
Proof.
  intros H.
  specialize (H (scripted_runtime (Ok request_ab) None)
                [("content", PInt 0)] (PInt 0) [] [] eq_refl).
  assert (P : present_nonnull_nonempty (PInt 0)) by (repeat split; discriminate).
  specialize (H P). discriminate H.
Qed.

(** C8, amended. For every message whose content passes Python's truth
    test (not null, not [False], not a zero number, not empty), the loop
    appends the string form of that content to the accumulator and changes
    nothing else; a content that fails the test, the number 0 and [False]
    among them, contributes nothing: the accumulator is left as it was. *)
Theorem content_is_appended_iff_truthy (rt : runtime) (d : list (string * pyval))
    (c : pyval) (acc : list string) (log : list event) :
  lookup "content" d = Some c ->
  (truthy c = true ->
   collect_content rt (PDict d) acc log =
   (Normal (acc ++ [str (float_repr rt) (str_repr rt) c])%list, log)) /\
  (truthy c = false ->
   collect_content rt (PDict d) acc log = (Normal acc, log)).
Proof.
  intros Hc. rewrite collect_content_dict. simpl. rewrite Hc.
  split; intros Ht; rewrite Ht.
  - reflexivity.
  - now rewrite app_nil_r.
Qed.

Lemma content_is_appended_iff_truthy_witness :
  collect_content (scripted_runtime (Ok request_ab) None)
    (PDict [("role", PStr "user"); ("content", PInt 7)]) ["a"] [] =
  (Normal ["a"; "7"], []) /\
  collect_content (scripted_runtime (Ok request_ab) None)
    (PDict [("role", PStr "user"); ("content", PInt 0)]) ["a"] [] =
  (Normal ["a"], []) /\
  collect_content (scripted_runtime (Ok request_ab) None)
    (PDict [("role", PStr "user"); ("content", PBool false)]) ["a"] [] =
  (Normal ["a"], []).
Proof.
  split; [|split].
  - apply (content_is_appended_iff_truthy (scripted_runtime (Ok request_ab) None)
             [("role", PStr "user"); ("content", PInt 7)] (PInt 7) ["a"] []);
      reflexivity.
  - apply (content_is_appended_iff_truthy (scripted_runtime (Ok request_ab) None)
             [("role", PStr "user"); ("content", PInt 0)] (PInt 0) ["a"] []);
      reflexivity.
  - apply (content_is_appended_iff_truthy (scripted_runtime (Ok request_ab) None)
             [("role", PStr "user"); ("content", PBool false)] (PBool false) ["a"] []);
      reflexivity.
Defined.

(** ** The script, stage by stage *)

Lemma get_dict (d : list (string * pyval)) (key : string) (default : pyval) :
  get (PDict d) key default = Ok (field d key default).
Proof. unfold get, field. now destruct (lookup key d). Qed.

Lemma truthy_str (s : string) : truthy (PStr s) = true <-> s <> "".
Proof.
  simpl. rewrite negb_true_iff. apply String.eqb_neq.
Qed.

Lemma script_receives (rt : runtime) (GeminiClient : client) (params : pyval) :
  gemini_webapi rt = Some GeminiClient ->
  receives rt params ->
  script rt [] = serve rt GeminiClient params [].
Proof.
  intros Hi (input_data & Hr & Hp).
  unfold script, import_gemini, read_params. rewrite Hi. step.
  rewrite Hr, Hp. reflexivity.
Qed.

Lemma script_import_fails (rt : runtime) :
  gemini_webapi rt = None ->
  script rt [] =
  (Exited 1,
   [Printed Stderr
      (failure "ImportError"
         "Failed to import gemini_webapi. Make sure it's installed in the Python environment.")]).
Proof.
  intros Hi. unfold script, import_gemini. rewrite Hi. reflexivity.
Qed.

Lemma serve_missing_psid (rt : runtime) (GeminiClient : client)
    (d : list (string * pyval)) :
  truthy (field d "psid" PNone) = false ->
  serve rt GeminiClient (PDict d) [] =
  (Exited 1,
   [Printed Stderr (failure "ValueError" "Missing 'psid' in input parameters.")]).
Proof.
  intros Hp. unfold serve. rewrite !get_dict. step. rewrite Hp. reflexivity.
Qed.

Lemma serve_missing_messages (rt : runtime) (GeminiClient : client)
    (d : list (string * pyval)) :
  truthy (field d "psid" PNone) = true ->
  truthy (field d "messages" PNone) = false ->
  serve rt GeminiClient (PDict d) [] =
  (Exited 1,
   [Printed Stderr
      (failure "ValueError" "Missing or empty 'messages' array in input parameters.")]).
Proof.
  intros Hp Hm. unfold serve. rewrite !get_dict. step. rewrite Hp, Hm. reflexivity.
Qed.

Lemma serve_builder_raises (rt : runtime) (GeminiClient : client)
    (d : list (string * pyval)) (e : py_exn) :
  truthy (field d "psid" PNone) = true ->
  truthy (field d "messages" PNone) = true ->
  build_prompt rt (field d "messages" PNone) [] = (Raised e, []) ->
  serve rt GeminiClient (PDict d) [] = (Raised e, []).
Proof.
  intros Hp Hm Hb. unfold serve. rewrite !get_dict. step.
  rewrite Hp, Hm. simpl. rewrite Hb. reflexivity.
Qed.

Lemma serve_empty_prompt (rt : runtime) (GeminiClient : client)
    (d : list (string * pyval)) :
  truthy (field d "psid" PNone) = true ->
  truthy (field d "messages" PNone) = true ->
  build_prompt rt (field d "messages" PNone) [] = (Normal "", []) ->
  serve rt GeminiClient (PDict d) [] =
  (Exited 1,
   [Printed Stderr
      (failure "ValueError" "Could not construct a non-empty prompt from messages.")]).
Proof.
  intros Hp Hm Hb. unfold serve. rewrite !get_dict. step.
  rewrite Hp, Hm. simpl. rewrite Hb. reflexivity.
Qed.

(** The request passes both presence checks and yields a non-empty prompt:
    the script reaches the external call. *)
Lemma serve_delegate_returns (rt : runtime) (GeminiClient : client)
    (d : list (string * pyval)) (prompt : string) (r : response) :
  accepted rt d prompt ->
  GeminiClient (field d "psid" PNone) (or_ (field d "psidts" PNone) PNone)
    prompt (field d "model" (PStr "unspecified")) = Returns r ->
  serve rt GeminiClient (PDict d) [] =
  (Exited 0,
   [Invoked (field d "psid" PNone) (or_ (field d "psidts" PNone) PNone)
      prompt (field d "model" (PStr "unspecified"));
    Printed Stdout
      (success (text r)
         match model r with
         | Some m => m
         | None => field d "model" (PStr "unspecified")
         end)]).
Proof.
  intros (Hp & Hm & Hb & Hne) Hc. apply truthy_str in Hne.
  unfold serve. rewrite !get_dict. step.
  rewrite Hp, Hm. simpl. rewrite Hb.
  simpl in Hne. rewrite Hne. simpl.
  unfold call_gemini; step. rewrite Hc. reflexivity.
Qed.

Lemma serve_delegate_raises (rt : runtime) (GeminiClient : client)
    (d : list (string * pyval)) (prompt : string) (e : py_exn) :
  accepted rt d prompt ->
  GeminiClient (field d "psid" PNone) (or_ (field d "psidts" PNone) PNone)
    prompt (field d "model" (PStr "unspecified")) = Raises e ->
  serve rt GeminiClient (PDict d) [] =
  (Exited 1,
   [Invoked (field d "psid" PNone) (or_ (field d "psidts" PNone) PNone)
      prompt (field d "model" (PStr "unspecified"));
    Printed Stderr (failure (exn_type e) (exn_str e))]).
Proof.
  intros (Hp & Hm & Hb & Hne) Hc. apply truthy_str in Hne.
  unfold serve. rewrite !get_dict. step.
  rewrite Hp, Hm. simpl. rewrite Hb.
  simpl in Hne. rewrite Hne. simpl.
  unfold call_gemini; step. rewrite Hc. reflexivity.
Qed.

Lemma run_exited (rt : runtime) (code : Z) (log : list event) :
  script rt [] = (Exited code, log) -> run rt = Finished log code.
Proof. intros H. unfold run. now rewrite H. Qed.

Lemma run_raised (rt : runtime) (e : py_exn) (log : list event) :
  script rt [] = (Raised e, log) -> run rt = Finished (log ++ [Traceback e]) 1.
Proof. intros H. unfold run. now rewrite H. Qed.

(** ** Decoding and validation *)

Lemma valid_json_examples :
  Json.valid cookie_payload = true /\
  Json.valid "[1, -0.5e+3, true, null, {}]" = true /\
  Json.valid "[1, 2" = false /\
  Json.valid "[NaN]" = false /\
  Json.valid "" = false.
Proof. repeat split; vm_compute; reflexivity. Qed.

(** C7, as stated, fails: not every payload that is not valid JSON is
    rejected.  [json.loads] accepts the literal [NaN]; a request that spells
    its [psid] that way is not valid JSON, is parsed without complaint, and
    is served: the client is called and the run ends with status 0. *)
Lemma nan_payload_is_not_rejected :
  Json.valid nan_payload = false /\
  run nan_runtime =
  Finished
    [Invoked (PFloat S754_nan) PNone "a" (PStr "unspecified");
     Printed Stdout (success "hello" (PStr "unspecified"))]
    0 /\
  ~ rejects_every_invalid_payload.
Proof.
  assert (Hv : Json.valid nan_payload = false) by (vm_compute; reflexivity).
  split; [exact Hv|]. split; [reflexivity|].
  intros H.
  destruct (H nan_runtime (replies hello) nan_payload eq_refl eq_refl Hv)
    as (message & Hrun).
  discriminate Hrun.
Qed.

(** C7, amended. When [json.loads] rejects the text read from standard
    input, that is, raises [JSONDecodeError], the process prints on stderr
    one failure object of type [JSONDecodeError] whose message carries the
    parser's diagnostic, exits with status 1, and does nothing else: no
    field is read and the client is not called. *)
Theorem invalid_json_is_reported (rt : runtime) (GeminiClient : client)
    (input_data diagnostic : string) :
  gemini_webapi rt = Some GeminiClient ->
  stdin_read rt = Ok input_data ->
  json_loads rt input_data = Err (Exn "JSONDecodeError" diagnostic) ->
  run rt =
  Finished
    [Printed Stderr
       (failure "JSONDecodeError" ("Failed to decode stdin JSON: " ++ diagnostic))]
    1 /\
  invocations (events (run rt)) = [].
Proof.
  intros Hi Hr Hl.
  assert (E : script rt [] =
              (Exited 1,
               [Printed Stderr
                  (failure "JSONDecodeError"
                     ("Failed to decode stdin JSON: " ++ diagnostic))])).
  { unfold script, import_gemini, read_params. rewrite Hi. step.
    rewrite Hr, Hl. reflexivity. }
  rewrite (run_exited _ _ _ E). split; reflexivity.
Qed.

Lemma invalid_json_is_reported_witness :
  run (scripted_runtime (Err truncated) (Some (replies hello))) =
  Finished
    [Printed Stderr
       (failure "JSONDecodeError"
          "Failed to decode stdin JSON: Expecting value: line 1 column 10 (char 9)")]
    1 /\
  invocations (events (run (scripted_runtime (Err truncated) (Some (replies hello))))) = [].
Proof.
  apply (invalid_json_is_reported
           (scripted_runtime (Err truncated) (Some (replies hello)))
           (replies hello) "<stdin>" "Expecting value: line 1 column 10 (char 9)");
    reflexivity.
Defined.

(** C4. A request whose [psid] is absent or falsy, or whose [messages] is
    absent or empty, gets one [ValueError] failure object on stderr and
    status 1, and the client is never called.  The message names [psid]
    when [psid] is the missing one, and [messages] otherwise. *)
Theorem missing_field_is_rejected (rt : runtime) (GeminiClient : client)
    (d : list (string * pyval)) :
  gemini_webapi rt = Some GeminiClient ->
  receives rt (PDict d) ->
  missing d "psid" \/ missing d "messages" ->
  exists message,
    run rt = Finished [Printed Stderr (failure "ValueError" message)] 1 /\
    invocations (events (run rt)) = [] /\
    (missing d "psid" -> message = "Missing 'psid' in input parameters.") /\
    (~ missing d "psid" ->
     message = "Missing or empty 'messages' array in input parameters.").
Proof.
  intros Hi Hr Hmiss. unfold missing in *.
  pose proof (script_receives rt GeminiClient (PDict d) Hi Hr) as Hs.
  destruct (truthy (field d "psid" PNone)) eqn:Hp.
  - destruct Hmiss as [Hmiss | Hm]; [discriminate Hmiss|].
    rewrite (serve_missing_messages rt GeminiClient d Hp Hm) in Hs.
    rewrite (run_exited _ _ _ Hs).
    exists "Missing or empty 'messages' array in input parameters.".
    split; [reflexivity|]. split; [reflexivity|]. split; [discriminate|reflexivity].
  - rewrite (serve_missing_psid rt GeminiClient d Hp) in Hs.
    rewrite (run_exited _ _ _ Hs).
    exists "Missing 'psid' in input parameters.".
    split; [reflexivity|]. split; [reflexivity|].
    split; [reflexivity | intros H; now elim H].
Qed.

Lemma missing_field_is_rejected_witness :
  (missing [("psid", PStr ""); ("messages", PList [msg_a])] "psid" /\
   run (scripted_runtime (Ok request_no_psid) (Some (replies hello))) =
   Finished
     [Printed Stderr (failure "ValueError" "Missing 'psid' in input parameters.")] 1) /\
  (missing [("psid", PStr "cookie"); ("messages", PList [])] "messages" /\
   run (scripted_runtime (Ok request_no_messages) (Some (replies hello))) =
   Finished
     [Printed Stderr
        (failure "ValueError" "Missing or empty 'messages' array in input parameters.")] 1).
Proof.
  split; (split; [reflexivity|]).
  - destruct (missing_field_is_rejected
                (scripted_runtime (Ok request_no_psid) (Some (replies hello)))
                (replies hello) [("psid", PStr ""); ("messages", PList [msg_a])]
                eq_refl (ex_intro _ "<stdin>" (conj eq_refl eq_refl))
                (or_introl eq_refl)) as (message & Hrun & _ & Hpsid & _).
    rewrite Hrun, (Hpsid eq_refl). reflexivity.
  - destruct (missing_field_is_rejected
                (scripted_runtime (Ok request_no_messages) (Some (replies hello)))
                (replies hello) [("psid", PStr "cookie"); ("messages", PList [])]
                eq_refl (ex_intro _ "<stdin>" (conj eq_refl eq_refl))
                (or_intror eq_refl)) as (message & Hrun & _ & _ & Hmsg).
    rewrite Hrun, Hmsg; [reflexivity | discriminate].
Defined.

Lemma no_content_empty_prompt (rt : runtime) (l : list pyval) (log : list event) :
  all_dicts l ->
  contents l = [] ->
  build_prompt rt (PList l) log = (Normal "", log).
Proof.
  intros Hd Hc. rewrite (build_prompt_dicts rt l log Hd).
  unfold joined_contents. rewrite Hc. reflexivity.
Qed.

(** C6. A request that passes both presence checks but whose messages join
    to the empty prompt (no message has content, as in [[{}]]) gets one
    [ValueError] failure object on stderr with the message
    "Could not construct a non-empty prompt from messages.", status 1, and
    no call to the client. *)
Theorem empty_prompt_is_rejected (rt : runtime) (GeminiClient : client)
    (d : list (string * pyval)) :
  gemini_webapi rt = Some GeminiClient ->
  receives rt (PDict d) ->
  ~ missing d "psid" ->
  ~ missing d "messages" ->
  build_prompt rt (field d "messages" PNone) [] = (Normal "", []) ->
  run rt =
  Finished
    [Printed Stderr
       (failure "ValueError" "Could not construct a non-empty prompt from messages.")]
    1 /\
  invocations (events (run rt)) = [].
Proof.
  intros Hi Hr Hp Hm Hb. unfold missing in *.
  apply not_false_is_true in Hp, Hm.
  pose proof (script_receives rt GeminiClient (PDict d) Hi Hr) as Hs.
  rewrite (serve_empty_prompt rt GeminiClient d Hp Hm Hb) in Hs.
  rewrite (run_exited _ _ _ Hs). split; reflexivity.
Qed.

Lemma empty_prompt_is_rejected_witness :
  run (scripted_runtime (Ok request_no_content) (Some (replies hello))) =
  Finished
    [Printed Stderr
       (failure "ValueError" "Could not construct a non-empty prompt from messages.")]
    1 /\
  invocations
    (events (run (scripted_runtime (Ok request_no_content) (Some (replies hello))))) = [].
Proof.
  apply (empty_prompt_is_rejected
           (scripted_runtime (Ok request_no_content) (Some (replies hello)))
           (replies hello) [("psid", PStr "cookie"); ("messages", PList [msg_empty])]).
  - reflexivity.
  - exists "<stdin>". split; reflexivity.
  - discriminate.
  - discriminate.
  - apply no_content_empty_prompt; [repeat constructor | reflexivity].
Defined.

(** ** The external call *)

(** C2. Whatever exception the client raises, the process prints on stderr
    the failure object carrying the exception's type name and its message
    unchanged, exits with status 1, and has called the client exactly
    once. *)
Theorem collaborator_exception_is_reported (rt : runtime) (GeminiClient : client)
    (d : list (string * pyval)) (prompt : string) (e : py_exn) :
  gemini_webapi rt = Some GeminiClient ->
  receives rt (PDict d) ->
  accepted rt d prompt ->
  GeminiClient (field d "psid" PNone) (or_ (field d "psidts" PNone) PNone)
    prompt (field d "model" (PStr "unspecified")) = Raises e ->
  run rt =
  Finished
    [Invoked (field d "psid" PNone) (or_ (field d "psidts" PNone) PNone)
       prompt (field d "model" (PStr "unspecified"));
     Printed Stderr (failure (exn_type e) (exn_str e))]
    1 /\
  List.length (invocations (events (run rt))) = 1%nat.
Proof.
  intros Hi Hr Ha Hc.
  pose proof (script_receives rt GeminiClient (PDict d) Hi Hr) as Hs.
  rewrite (serve_delegate_raises rt GeminiClient d prompt e Ha Hc) in Hs.
  rewrite (run_exited _ _ _ Hs). split; reflexivity.
Qed.

Lemma collaborator_exception_is_reported_witness :
  run (scripted_runtime (Ok request_ab) (Some (fails_with auth_error))) =
  Finished
    [Invoked (PStr "cookie") PNone ("a" ++ newline ++ "b") (PStr "gemini-pro");
     Printed Stderr
       (PDict [("success", PBool false);
               ("error", PDict [("type", PStr "AuthError");
                                ("message", PStr "bad cookie")])])]
    1 /\
  List.length (invocations
            (events (run (scripted_runtime (Ok request_ab)
                            (Some (fails_with auth_error)))))) = 1%nat.
Proof.
  apply (collaborator_exception_is_reported
           (scripted_runtime (Ok request_ab) (Some (fails_with auth_error)))
           (fails_with auth_error)
           [("psid", PStr "cookie"); ("model", PStr "gemini-pro");
            ("messages", PList [msg_a; msg_empty; msg_b])]
           ("a" ++ newline ++ "b") auth_error).
  - reflexivity.
  - exists "<stdin>". split; reflexivity.
  - repeat split; try reflexivity. discriminate.
  - reflexivity.
Defined.

(** C3. When the client returns a response, the process prints on stdout
    the success object with the response's text and the model used, and
    exits with status 0; the model used is the one the response reports
    and, when it reports none, the model the request asked for. *)
Theorem collaborator_response_is_printed (rt : runtime) (GeminiClient : client)
    (d : list (string * pyval)) (prompt : string) (r : response) :
  gemini_webapi rt = Some GeminiClient ->
  receives rt (PDict d) ->
  accepted rt d prompt ->
  GeminiClient (field d "psid" PNone) (or_ (field d "psidts" PNone) PNone)
    prompt (field d "model" (PStr "unspecified")) = Returns r ->
  exists model_used,
    run rt =
    Finished
      [Invoked (field d "psid" PNone) (or_ (field d "psidts" PNone) PNone)
         prompt (field d "model" (PStr "unspecified"));
       Printed Stdout (success (text r) model_used)]
      0 /\
    (forall m, model r = Some m -> model_used = m) /\
    (model r = None -> model_used = field d "model" (PStr "unspecified")).
Proof.
  intros Hi Hr Ha Hc.
  pose proof (script_receives rt GeminiClient (PDict d) Hi Hr) as Hs.
  rewrite (serve_delegate_returns rt GeminiClient d prompt r Ha Hc) in Hs.
  rewrite (run_exited _ _ _ Hs).
  eexists. split; [reflexivity|].
  destruct (model r) as [m|]; split; congruence.
Qed.

Lemma collaborator_response_is_printed_witness :
  run (scripted_runtime (Ok request_ab) (Some (replies hello))) =
  Finished
    [Invoked (PStr "cookie") PNone ("a" ++ newline ++ "b") (PStr "gemini-pro");
     Printed Stdout
       (PDict [("success", PBool true);
               ("text", PStr "hello");
               ("model_used", PStr "gemini-pro")])]
    0.
Proof.
  destruct (collaborator_response_is_printed
              (scripted_runtime (Ok request_ab) (Some (replies hello)))
              (replies hello)
              [("psid", PStr "cookie"); ("model", PStr "gemini-pro");
               ("messages", PList [msg_a; msg_empty; msg_b])]
              ("a" ++ newline ++ "b") hello
              eq_refl
              (ex_intro _ "<stdin>" (conj eq_refl eq_refl))
              (conj eq_refl (conj eq_refl (conj eq_refl
                 (fun H : "a" ++ newline ++ "b" = "" =>
                    eq_ind ("a" ++ newline ++ "b")
                      (fun s => match s with EmptyString => False | _ => True end)
                      I "" H))))
              eq_refl) as (model_used & Hrun & _ & Hnone).
  rewrite Hrun, (Hnone eq_refl). reflexivity.
Defined.

(** ** One object, one stream, one status *)

Lemma single_object_failure (r : process_result) (type message : string) :
  written Stderr (events r) = [JsonText (failure type message)] ->
  written Stdout (events r) = [] ->
  exit_code r = 1%Z ->
  single_object r.
Proof.
  intros Herr Hout Hcode.
  assert (F : emits_failure r) by (exists type, message; now split).
  assert (S : ~ emits_success r).
  { intros (t & m & Hs & _). rewrite Hout in Hs. discriminate Hs. }
  unfold single_object. rewrite Hcode.
  split; [now right|]. split; [tauto|]. split; [|tauto].
  split; [discriminate | tauto].
Qed.

Lemma single_object_success (r : process_result) (text_content : string)
    (model_used : pyval) :
  written Stdout (events r) = [JsonText (success text_content model_used)] ->
  written Stderr (events r) = [] ->
  exit_code r = 0%Z ->
  single_object r.
Proof.
  intros Hout Herr Hcode.
  assert (S : emits_success r) by (exists text_content, model_used; now split).
  assert (F : ~ emits_failure r).
  { intros (t & m & Hs & _). rewrite Herr in Hs. discriminate Hs. }
  unfold single_object. rewrite Hcode.
  split; [now left|]. split; [tauto|]. split; [tauto|].
  split; [discriminate | tauto].
Qed.

Lemma well_formed_reaches_builder (rt : runtime) (d : list (string * pyval)) :
  well_formed d ->
  exists prompt,
    truthy (field d "psid" PNone) = true /\
    truthy (field d "messages" PNone) = true /\
    build_prompt rt (field d "messages" PNone) [] = (Normal prompt, []).
Proof.
  intros (Hp & l & Hl & Hne & Hd).
  exists (joined_contents rt l). unfold field at 2 3. rewrite Hl.
  split; [exact Hp|]. split.
  - destruct l; [now elim Hne | reflexivity].
  - now apply build_prompt_dicts.
Qed.

(** C1. For every well-formed request (a non-empty [psid] and a non-empty
    [messages] list of mappings) the process ends having written exactly
    one JSON object on exactly one stream: the success variant on stdout or
    the failure variant on stderr, never both and never neither.  Its
    status is 0 exactly in the first case and 1 exactly in the second. *)
Theorem well_formed_request_single_object (rt : runtime) (d : list (string * pyval)) :
  receives rt (PDict d) ->
  well_formed d ->
  single_object (run rt).
Proof.
  intros Hr Hwf.
  destruct (gemini_webapi rt) as [GeminiClient|] eqn:Hi.
  - pose proof (script_receives rt GeminiClient (PDict d) Hi Hr) as Hs.
    destruct (well_formed_reaches_builder rt d Hwf) as (prompt & Hp & Hm & Hb).
    destruct (string_dec prompt "") as [->|Hne].
    + rewrite (serve_empty_prompt rt GeminiClient d Hp Hm Hb) in Hs.
      rewrite (run_exited _ _ _ Hs).
      now eapply single_object_failure.
    + assert (Ha : accepted rt d prompt) by (repeat split; assumption).
      destruct (GeminiClient (field d "psid" PNone)
                  (or_ (field d "psidts" PNone) PNone) prompt
                  (field d "model" (PStr "unspecified"))) as [r|e] eqn:Hc.
      * rewrite (serve_delegate_returns rt GeminiClient d prompt r Ha Hc) in Hs.
        rewrite (run_exited _ _ _ Hs).
        now eapply single_object_success.
      * rewrite (serve_delegate_raises rt GeminiClient d prompt e Ha Hc) in Hs.
        rewrite (run_exited _ _ _ Hs).
        now eapply single_object_failure.
  - rewrite (run_exited _ _ _ (script_import_fails rt Hi)).
    now eapply single_object_failure.
Qed.

Lemma well_formed_request_single_object_witness :
  single_object (run (scripted_runtime (Ok request_ab) (Some (replies hello)))).
Proof.
  apply (well_formed_request_single_object
           (scripted_runtime (Ok request_ab) (Some (replies hello)))
           [("psid", PStr "cookie"); ("model", PStr "gemini-pro");
            ("messages", PList [msg_a; msg_empty; msg_b])]).
  - exists "<stdin>". split; reflexivity.
  - split; [reflexivity|].
    exists [msg_a; msg_empty; msg_b].
    split; [reflexivity|]. split; [discriminate | repeat constructor].
Defined.

(** ** Messages that are not mappings *)

Lemma collect_content_non_dict (rt : runtime) (msg : pyval)
    (acc : list string) (log : list event) :
  is_dict msg = false ->
  collect_content rt msg acc log = (Raised (AttributeError msg "get"), log).
Proof.
  intros H. destruct msg; try discriminate H; reflexivity.
Qed.

Lemma for_in_non_dict (rt : runtime) (l : list pyval) :
  Exists (fun m => is_dict m = false) l ->
  forall acc log,
  exists e,
    exn_type e = "AttributeError" /\
    for_in l (collect_content rt) acc log = (Raised e, log).
Proof.
  induction l as [|msg rest IH]; intros Hex acc log.
  - inversion Hex.
  - cbn [for_in]. unfold bind.
    destruct (is_dict msg) eqn:Hd.
    + destruct msg; try discriminate Hd.
      rewrite collect_content_dict.
      apply IH. inversion Hex as [? ? Hm|? ? Hrest]; subst; [|assumption].
      discriminate Hm.
    + rewrite (collect_content_non_dict rt msg acc log Hd).
      exists (AttributeError msg "get"). split; reflexivity.
Qed.

Lemma chars_non_dict (s : string) :
  s <> "" -> Exists (fun m => is_dict m = false) (chars s).
Proof.
  destruct s as [|c rest]; [intros H; now elim H|].
  intros _. simpl. now constructor.
Qed.

Lemma non_mapping_builder_raises (rt : runtime) (messages : pyval) (log : list event) :
  has_non_mapping messages ->
  truthy messages = true /\
  exists e,
    exn_type e = "AttributeError" /\
    build_prompt rt messages log = (Raised e, log).
Proof.
  intros [(l & -> & Hex) | (s & -> & Hne)].
  - split.
    + destruct l; [inversion Hex | reflexivity].
    + destruct (for_in_non_dict rt l Hex [] log) as (e & He & Hf).
      exists e. split; [exact He|].
      unfold build_prompt, build_prompt_parts; step. now rewrite Hf.
  - split.
    + now apply truthy_str.
    + destruct (for_in_non_dict rt (chars s) (chars_non_dict s Hne) [] log)
        as (e & He & Hf).
      exists e. split; [exact He|].
      unfold build_prompt, build_prompt_parts; step. now rewrite Hf.
Qed.

(** C10. A request that is valid JSON and passes both presence checks, but
    whose [messages] holds something that is not a mapping (a list with a
    number in it, or a non-empty string), makes the loop raise
    [AttributeError]; nothing catches it, so the process ends with status
    1 and a traceback on stderr, and no JSON object on either stream. *)
Theorem non_mapping_message_is_uncaught (rt : runtime) (GeminiClient : client)
    (d : list (string * pyval)) :
  gemini_webapi rt = Some GeminiClient ->
  receives rt (PDict d) ->
  ~ missing d "psid" ->
  has_non_mapping (field d "messages" PNone) ->
  exists e,
    exn_type e = "AttributeError" /\
    run rt = Finished [Traceback e] 1 /\
    written Stdout (events (run rt)) = [] /\
    written Stderr (events (run rt)) = [TracebackText e].
Proof.
  intros Hi Hr Hp Hnm. unfold missing in Hp. apply not_false_is_true in Hp.
  destruct (non_mapping_builder_raises rt _ [] Hnm) as (Hm & e & He & Hb).
  pose proof (script_receives rt GeminiClient (PDict d) Hi Hr) as Hs.
  rewrite (serve_builder_raises rt GeminiClient d e Hp Hm Hb) in Hs.
  exists e. rewrite (run_raised _ _ _ Hs). repeat split; assumption || reflexivity.
Qed.

Lemma non_mapping_message_is_uncaught_witness :
  (exists e,
      exn_type e = "AttributeError" /\
      run (scripted_runtime (Ok request_number_message) (Some (replies hello))) =
      Finished [Traceback e] 1 /\
      written Stdout
        (events (run (scripted_runtime (Ok request_number_message)
                        (Some (replies hello))))) = [] /\
      written Stderr
        (events (run (scripted_runtime (Ok request_number_message)
                        (Some (replies hello))))) = [TracebackText e]) /\
  (exists e,
      exn_type e = "AttributeError" /\
      run (scripted_runtime (Ok request_string_messages) (Some (replies hello))) =
      Finished [Traceback e] 1 /\
      written Stdout
        (events (run (scripted_runtime (Ok request_string_messages)
                        (Some (replies hello))))) = [] /\
      written Stderr
        (events (run (scripted_runtime (Ok request_string_messages)
                        (Some (replies hello))))) = [TracebackText e]).
Proof.
  split.
  - apply (non_mapping_message_is_uncaught
             (scripted_runtime (Ok request_number_message) (Some (replies hello)))
             (replies hello)
             [("psid", PStr "cookie"); ("messages", PList [PInt 42])]).
    + reflexivity.
    + exists "<stdin>". split; reflexivity.
    + discriminate.
    + left. exists [PInt 42]. split; [reflexivity|]. now apply Exists_cons_hd.
  - apply (non_mapping_message_is_uncaught
             (scripted_runtime (Ok request_string_messages) (Some (replies hello)))
             (replies hello)
             [("psid", PStr "cookie"); ("messages", PStr "hi")]).
    + reflexivity.
    + exists "<stdin>". split; reflexivity.
    + discriminate.
    + right. exists "hi". split; [reflexivity | discriminate].
Defined.

(** ** The secondary credential *)

Lemma field_same_but_psidts (d1 d2 : list (string * pyval)) (key : string)
    (default : pyval) :
  same_but_psidts d1 d2 ->
  key <> "psidts" ->
  field d1 key default = field d2 key default.
Proof. intros H Hk. unfold field. now rewrite (H key Hk). Qed.

Lemma same_but_psidts_insert (before after : list (string * pyval)) (v : pyval) :
  same_but_psidts (before ++ after) (before ++ ("psidts", v) :: after).
Proof.
  intros key Hk. induction before as [|[k w] rest IH]; cbn [app lookup].
  - destruct ("psidts" =? key) eqn:E; [|reflexivity].
    apply String.eqb_eq in E. now elim Hk.
  - now rewrite IH.
Qed.

Lemma serve_same_environment (rt1 rt2 : runtime) (GeminiClient : client)
    (params : pyval) (log : list event) :
  same_environment rt1 rt2 ->
  serve rt1 GeminiClient params log = serve rt2 GeminiClient params log.
Proof.
  intros (Hf & Hs & _).
  unfold serve, build_prompt, build_prompt_parts, collect_content.
  rewrite Hf, Hs. reflexivity.
Qed.

Lemma serve_or_psidts (rt : runtime) (GeminiClient : client)
    (d1 d2 : list (string * pyval)) :
  same_but_psidts d1 d2 ->
  or_ (field d1 "psidts" PNone) PNone = or_ (field d2 "psidts" PNone) PNone ->
  serve rt GeminiClient (PDict d1) [] = serve rt GeminiClient (PDict d2) [].
Proof.
  intros Hsame Hor. unfold serve, call_gemini. rewrite !get_dict.
  rewrite (field_same_but_psidts d1 d2 "psid" PNone Hsame) by discriminate.
  rewrite (field_same_but_psidts d1 d2 "model" (PStr "unspecified") Hsame)
    by discriminate.
  rewrite (field_same_but_psidts d1 d2 "messages" PNone Hsame) by discriminate.
  step. rewrite Hor. reflexivity.
Qed.

Lemma collect_content_log (rt : runtime) (msg : pyval) (acc : list string)
    (log : list event) :
  snd (collect_content rt msg acc log) = log.
Proof.
  destruct (is_dict msg) eqn:Hd.
  - destruct msg; try discriminate Hd. now rewrite collect_content_dict.
  - now rewrite (collect_content_non_dict rt msg acc log Hd).
Qed.

Lemma for_in_log (rt : runtime) (l : list pyval) :
  forall acc log, snd (for_in l (collect_content rt) acc log) = log.
Proof.
  induction l as [|msg rest IH]; intros acc log; [reflexivity|].
  cbn [for_in]. unfold bind.
  pose proof (collect_content_log rt msg acc log) as Hc.
  destruct (collect_content rt msg acc log) as [[acc'|code|e] log']; simpl in Hc; subst log'.
  - apply IH.
  - reflexivity.
  - reflexivity.
Qed.

Lemma build_prompt_log (rt : runtime) (messages : pyval) (log : list event) :
  snd (build_prompt rt messages log) = log.
Proof.
  unfold build_prompt, build_prompt_parts; step.
  destruct (iter messages) as [items|e]; [|reflexivity].
  pose proof (for_in_log rt items [] log) as Hf.
  destruct (for_in items (collect_content rt) [] log) as [[parts|code|e] log'];
    simpl in Hf; subst log'; reflexivity.
Qed.

(** The script calls the client at most once, and always with [psid], with
    [psidts or None], and with the requested model. *)
Lemma serve_invocations (rt : runtime) (GeminiClient : client)
    (d : list (string * pyval)) (sig : signal unit) (log : list event) :
  serve rt GeminiClient (PDict d) [] = (sig, log) ->
  invocations log = [] \/
  exists prompt,
    invocations log =
    [(field d "psid" PNone, or_ (field d "psidts" PNone) PNone, prompt,
      field d "model" (PStr "unspecified"))].
Proof.
  unfold serve. rewrite !get_dict. step.
  destruct (truthy (field d "psid" PNone)); simpl;
    [|intros H; injection H as _ <-; now left].
  destruct (truthy (field d "messages" PNone)); simpl;
    [|intros H; injection H as _ <-; now left].
  pose proof (build_prompt_log rt (field d "messages" PNone) []) as Hb.
  destruct (build_prompt rt (field d "messages" PNone) []) as [[prompt|code|e] log'];
    simpl in Hb; subst log';
    [|intros H; injection H as _ <-; now left ..].
  destruct (prompt =? ""); simpl;
    [intros H; injection H as _ <-; now left|].
  unfold call_gemini; step.
  destruct (GeminiClient _ _ _ _); simpl;
    intros H; injection H as _ <-; right; now exists prompt.
Qed.

(** C9. Take two requests that are the same except that [psidts] is absent
    from the first and is the empty string (or null) in the second, in the
    same environment.  The two runs are the same, event for event and
    status for status, and any call to the client passes [None] as the
    secondary credential. *)
Theorem empty_psidts_same_as_absent (rt1 rt2 : runtime)
    (d1 d2 : list (string * pyval)) :
  same_environment rt1 rt2 ->
  receives rt1 (PDict d1) ->
  receives rt2 (PDict d2) ->
  same_but_psidts d1 d2 ->
  lookup "psidts" d1 = None ->
  lookup "psidts" d2 = Some (PStr "") \/ lookup "psidts" d2 = Some PNone ->
  run rt1 = run rt2 /\
  (forall secure_psid secure_psidts user_prompt model_name,
      In (secure_psid, secure_psidts, user_prompt, model_name)
         (invocations (events (run rt1))) ->
      secure_psidts = PNone) /\
  (forall GeminiClient prompt,
      gemini_webapi rt1 = Some GeminiClient ->
      accepted rt1 d1 prompt ->
      invocations (events (run rt1)) =
      [(field d1 "psid" PNone, PNone, prompt, field d1 "model" (PStr "unspecified"))]).
Proof.
  intros Henv Hr1 Hr2 Hsame Habs Hemp.
  assert (Hreach : forall GeminiClient prompt,
             gemini_webapi rt1 = Some GeminiClient ->
             accepted rt1 d1 prompt ->
             invocations (events (run rt1)) =
             [(field d1 "psid" PNone, or_ (field d1 "psidts" PNone) PNone, prompt,
               field d1 "model" (PStr "unspecified"))]).
  { intros GeminiClient prompt Hi Ha.
    pose proof (script_receives rt1 GeminiClient (PDict d1) Hi Hr1) as Hs.
    destruct (GeminiClient (field d1 "psid" PNone)
                (or_ (field d1 "psidts" PNone) PNone) prompt
                (field d1 "model" (PStr "unspecified"))) as [r|e] eqn:Hc.
    - rewrite (serve_delegate_returns rt1 GeminiClient d1 prompt r Ha Hc) in Hs.
      now rewrite (run_exited _ _ _ Hs).
    - rewrite (serve_delegate_raises rt1 GeminiClient d1 prompt e Ha Hc) in Hs.
      now rewrite (run_exited _ _ _ Hs). }
  assert (Hor1 : or_ (field d1 "psidts" PNone) PNone = PNone).
  { unfold field. now rewrite Habs. }
  assert (Hor2 : or_ (field d2 "psidts" PNone) PNone = PNone).
  { unfold field. destruct Hemp as [-> | ->]; reflexivity. }
  destruct (gemini_webapi rt1) as [GeminiClient|] eqn:Hi1.
  - assert (Hi2 : gemini_webapi rt2 = Some GeminiClient).
    { destruct Henv as (_ & _ & <-). exact Hi1. }
    pose proof (script_receives rt1 GeminiClient (PDict d1) Hi1 Hr1) as Hs1.
    pose proof (script_receives rt2 GeminiClient (PDict d2) Hi2 Hr2) as Hs2.
    rewrite <- (serve_same_environment rt1 rt2 GeminiClient (PDict d2) [] Henv) in Hs2.
    rewrite <- (serve_or_psidts rt1 GeminiClient d1 d2 Hsame
                  (eq_trans Hor1 (eq_sym Hor2))) in Hs2.
    split; [|split].
    + unfold run. now rewrite Hs1, Hs2.
    + intros a b c m Hin.
      destruct (serve rt1 GeminiClient (PDict d1) []) as [sig log] eqn:Hserve.
      assert (Hinv : invocations (events (run rt1)) = invocations log).
      { unfold run. rewrite Hs1.
        destruct sig; simpl; try reflexivity.
        clear. induction log as [|ev rest IH]; [reflexivity|].
        destruct ev; simpl; now rewrite ?IH. }
      rewrite Hinv in Hin.
      destruct (serve_invocations rt1 GeminiClient d1 sig log Hserve)
        as [Hnone | (prompt & Hone)].
      * rewrite Hnone in Hin. inversion Hin.
      * rewrite Hone in Hin. destruct Hin as [Heq | []].
        injection Heq as _ <- _ _. exact Hor1.
    + intros c prompt Hi Ha. rewrite (Hreach c prompt Hi Ha), Hor1. reflexivity.
  - assert (Hi2 : gemini_webapi rt2 = None).
    { destruct Henv as (_ & _ & <-). exact Hi1. }
    rewrite (run_exited _ _ _ (script_import_fails rt1 Hi1)).
    rewrite (run_exited _ _ _ (script_import_fails rt2 Hi2)).
    split; [reflexivity|]. split.
    + intros a b c m Hin. simpl in Hin. now elim Hin.
    + intros c prompt Hi. discriminate Hi.
Qed.

Lemma empty_psidts_same_as_absent_witness :
  run (scripted_runtime (Ok request_ab) (Some (replies hello))) =
  run (scripted_runtime (Ok request_ab_empty_psidts) (Some (replies hello))) /\
  invocations
    (events (run (scripted_runtime (Ok request_ab) (Some (replies hello))))) =
  [(PStr "cookie", PNone, "a" ++ newline ++ "b", PStr "gemini-pro")].
Proof.
  assert (Hne : "a" ++ newline ++ "b" <> "") by discriminate.
  enough (H : run (scripted_runtime (Ok request_ab) (Some (replies hello))) =
              run (scripted_runtime (Ok request_ab_empty_psidts) (Some (replies hello))) /\
              (forall secure_psid secure_psidts user_prompt model_name,
                  In (secure_psid, secure_psidts, user_prompt, model_name)
                     (invocations
                        (events (run (scripted_runtime (Ok request_ab)
                                        (Some (replies hello)))))) ->
                  secure_psidts = PNone) /\
              (forall GeminiClient prompt,
                  Some (replies hello) = Some GeminiClient ->
                  accepted (scripted_runtime (Ok request_ab) (Some (replies hello)))
                    [("psid", PStr "cookie"); ("model", PStr "gemini-pro");
                     ("messages", PList [msg_a; msg_empty; msg_b])] prompt ->
                  invocations
                    (events (run (scripted_runtime (Ok request_ab)
                                    (Some (replies hello))))) =
                  [(PStr "cookie", PNone, prompt, PStr "gemini-pro")])).
  { destruct H as (Hrun & _ & Hcall). split; [exact Hrun|].
    apply (Hcall (replies hello) ("a" ++ newline ++ "b") eq_refl).
    repeat split; try reflexivity. exact Hne. }
  apply (empty_psidts_same_as_absent
           (scripted_runtime (Ok request_ab) (Some (replies hello)))
           (scripted_runtime (Ok request_ab_empty_psidts) (Some (replies hello)))
           [("psid", PStr "cookie"); ("model", PStr "gemini-pro");
            ("messages", PList [msg_a; msg_empty; msg_b])]
           [("psid", PStr "cookie"); ("psidts", PStr ""); ("model", PStr "gemini-pro");
            ("messages", PList [msg_a; msg_empty; msg_b])]).
  - repeat split.
  - exists "<stdin>". split; reflexivity.
  - exists "<stdin>". split; reflexivity.
  - apply (same_but_psidts_insert [("psid", PStr "cookie")]
             [("model", PStr "gemini-pro");
              ("messages", PList [msg_a; msg_empty; msg_b])] (PStr "")).
  - reflexivity.
  - left. reflexivity.
Defined.

(** ** The import and the read *)

Lemma script_read_raises (rt : runtime) (GeminiClient : client) (e : py_exn) :
  gemini_webapi rt = Some GeminiClient ->
  read_raises rt e ->
  script rt [] = (Exited 1, [Printed Stderr (read_failure e)]).
Proof.
  intros Hi Hr. unfold script, import_gemini, read_params, read_failure.
  rewrite Hi. step.
  destruct Hr as [Hr | (input_data & Hr & Hl)].
  - rewrite Hr. destruct (exn_type e =? "JSONDecodeError"); reflexivity.
  - rewrite Hr, Hl. destruct (exn_type e =? "JSONDecodeError"); reflexivity.
Qed.

(** X1. When [gemini_webapi] cannot be imported the process prints the fixed
    [ImportError] failure object on stderr and exits with status 1,
    whatever standard input holds: nothing is read, parsed or called. *)
Theorem import_failure_is_reported (rt : runtime) :
  gemini_webapi rt = None ->
  run rt =
  Finished
    [Printed Stderr
       (failure "ImportError"
          "Failed to import gemini_webapi. Make sure it's installed in the Python environment.")]
    1.
Proof.
  intros Hi. exact (run_exited _ _ _ (script_import_fails rt Hi)).
Qed.

Lemma import_failure_is_reported_witness :
  run (scripted_runtime (Ok request_ab) None) =
  Finished
    [Printed Stderr
       (failure "ImportError"
          "Failed to import gemini_webapi. Make sure it's installed in the Python environment.")]
    1.
Proof.
  apply (import_failure_is_reported (scripted_runtime (Ok request_ab) None)).
  reflexivity.
Defined.

(** X2. Any exception other than [JSONDecodeError] raised while reading or
    parsing standard input is reported under its own type name, with the
    message "Error reading stdin: " followed by its text, on stderr with
    status 1; the client is not called. *)
Theorem read_error_is_reported (rt : runtime) (GeminiClient : client) (e : py_exn) :
  gemini_webapi rt = Some GeminiClient ->
  read_raises rt e ->
  exn_type e <> "JSONDecodeError" ->
  run rt =
  Finished
    [Printed Stderr (failure (exn_type e) ("Error reading stdin: " ++ exn_str e))] 1.
Proof.
  intros Hi Hr Hne.
  rewrite (run_exited _ _ _ (script_read_raises rt GeminiClient e Hi Hr)).
  unfold read_failure. apply String.eqb_neq in Hne. now rewrite Hne.
Qed.

Lemma read_error_is_reported_witness :
  run (Runtime (fun _ => "nan") (fun s => s) (Err unicode_error)
         (fun _ => Ok request_ab) (Some (replies hello))) =
  Finished
    [Printed Stderr
       (failure "UnicodeDecodeError"
          "Error reading stdin: 'utf-8' codec can't decode byte 0xff in position 0: invalid start byte")]
    1.
Proof.
  apply (read_error_is_reported
           (Runtime (fun _ => "nan") (fun s => s) (Err unicode_error)
              (fun _ => Ok request_ab) (Some (replies hello)))
           (replies hello) unicode_error).
  - reflexivity.
  - left. reflexivity.
  - discriminate.
Defined.

(** ** Requests that are not objects, messages that are not lists *)

Lemma serve_non_dict (rt : runtime) (GeminiClient : client) (params : pyval) :
  is_dict params = false ->
  serve rt GeminiClient params [] = (Raised (AttributeError params "get"), []).
Proof.
  intros H. destruct params; try discriminate H; reflexivity.
Qed.

(** X3. A request that parses to anything but an object (a list, a string, a
    number, [null]) has no [get]: the first field access raises
    [AttributeError], nothing catches it, and the process ends with a
    traceback on stderr and status 1, having printed no JSON object. *)
Theorem non_object_request_is_uncaught (rt : runtime) (GeminiClient : client)
    (params : pyval) :
  gemini_webapi rt = Some GeminiClient ->
  receives rt params ->
  is_dict params = false ->
  run rt = Finished [Traceback (AttributeError params "get")] 1.
Proof.
  intros Hi Hr Hd.
  pose proof (script_receives rt GeminiClient params Hi Hr) as Hs.
  rewrite (serve_non_dict rt GeminiClient params Hd) in Hs.
  exact (run_raised _ _ _ Hs).
Qed.

Lemma non_object_request_is_uncaught_witness :
  run (scripted_runtime (Ok request_list) (Some (replies hello))) =
  Finished
    [Traceback (Exn "AttributeError" "'list' object has no attribute 'get'")] 1.
Proof.
  apply (non_object_request_is_uncaught
           (scripted_runtime (Ok request_list) (Some (replies hello)))
           (replies hello) request_list).
  - reflexivity.
  - exists "<stdin>". split; reflexivity.
  - reflexivity.
Defined.

Lemma for_in_cases (rt : runtime) (l : list pyval) :
  forall acc log,
    (exists parts, for_in l (collect_content rt) acc log = (Normal parts, log)) \/
    (exists e,
        exn_type e = "AttributeError" /\
        for_in l (collect_content rt) acc log = (Raised e, log)).
Proof.
  induction l as [|msg rest IH]; intros acc log.
  - left. now exists acc.
  - cbn [for_in]. unfold bind. destruct (is_dict msg) eqn:Hd.
    + destruct msg; try discriminate Hd. rewrite collect_content_dict. apply IH.
    + right. rewrite (collect_content_non_dict rt msg acc log Hd).
      exists (AttributeError msg "get"). split; reflexivity.
Qed.

Lemma build_prompt_cases (rt : runtime) (messages : pyval) (log : list event) :
  (exists prompt, build_prompt rt messages log = (Normal prompt, log)) \/
  (exists e,
      (exn_type e = "AttributeError" \/ exn_type e = "TypeError") /\
      build_prompt rt messages log = (Raised e, log)).
Proof.
  unfold build_prompt, build_prompt_parts; step.
  destruct (iter messages) as [items|e] eqn:Hi.
  - destruct (for_in_cases rt items [] log) as [(parts & ->) | (e & He & ->)].
    + left. now eexists.
    + right. exists e. split; [now left | reflexivity].
  - right. exists e. split; [|reflexivity].
    right. destruct messages; simpl in Hi; try discriminate Hi;
      injection Hi as <-; reflexivity.
Qed.

(** X5. Building the prompt has no effect of its own, whatever [messages] is:
    it prints nothing, calls nothing and never exits.  It either yields a
    prompt or raises [AttributeError] (an item has no [get]) or [TypeError]
    (the value cannot be iterated); the subscription [msg['content']] is
    guarded by the test before it and never raises [KeyError]. *)
Theorem prompt_builder_returns_or_raises (rt : runtime) (messages : pyval)
    (log : list event) :
  (exists prompt, build_prompt rt messages log = (Normal prompt, log)) \/
  (exists e,
      (exn_type e = "AttributeError" \/ exn_type e = "TypeError") /\
      build_prompt rt messages log = (Raised e, log)).
Proof. apply build_prompt_cases. Qed.

Lemma non_list_builder_raises (rt : runtime) (messages : pyval) (log : list event) :
  truthy messages = true ->
  (forall l, messages <> PList l) ->
  exists e,
    build_prompt rt messages log = (Raised e, log) /\
    exn_type e =
    match messages with
    | PStr _ | PDict _ => "AttributeError"
    | _ => "TypeError"
    end.
Proof.
  intros Ht Hnl.
  destruct messages as [|b|n|f|s|l|d]; try discriminate Ht.
  - eexists. split; reflexivity.
  - eexists. split; reflexivity.
  - eexists. split; reflexivity.
  - destruct (non_mapping_builder_raises rt (PStr s) log) as (_ & e & He & Hb).
    { right. exists s. split; [reflexivity | now apply truthy_str]. }
    exists e. now split.
  - now elim (Hnl l).
  - destruct d as [|[k v] rest]; [discriminate Ht|].
    exists (AttributeError (PStr k) "get"). split; reflexivity.
Qed.

(** X4. A [messages] value that is truthy but not a list never reaches the
    client: a number or [true] cannot be iterated ([TypeError]); a string
    yields its characters and an object yields its keys, which have no
    [get] ([AttributeError]).  Either way nothing catches the exception:
    one traceback on stderr, status 1. *)
Theorem non_list_messages_are_uncaught (rt : runtime) (GeminiClient : client)
    (d : list (string * pyval)) :
  gemini_webapi rt = Some GeminiClient ->
  receives rt (PDict d) ->
  ~ missing d "psid" ->
  ~ missing d "messages" ->
  (forall l, field d "messages" PNone <> PList l) ->
  exists e,
    run rt = Finished [Traceback e] 1 /\
    exn_type e =
    match field d "messages" PNone with
    | PStr _ | PDict _ => "AttributeError"
    | _ => "TypeError"
    end.
Proof.
  intros Hi Hr Hp Hm Hnl. unfold missing in *.
  apply not_false_is_true in Hp, Hm.
  destruct (non_list_builder_raises rt _ [] Hm Hnl) as (e & Hb & He).
  pose proof (script_receives rt GeminiClient (PDict d) Hi Hr) as Hs.
  rewrite (serve_builder_raises rt GeminiClient d e Hp Hm Hb) in Hs.
  exists e. split; [exact (run_raised _ _ _ Hs) | exact He].
Qed.

Lemma non_list_messages_are_uncaught_witness :
  (exists e,
      run (scripted_runtime (Ok request_number_messages) (Some (replies hello))) =
      Finished [Traceback e] 1 /\
      exn_type e = "TypeError") /\
  (exists e,
      run (scripted_runtime (Ok request_keyed_messages) (Some (replies hello))) =
      Finished [Traceback e] 1 /\
      exn_type e = "AttributeError").
Proof.
  split.
  - apply (non_list_messages_are_uncaught
             (scripted_runtime (Ok request_number_messages) (Some (replies hello)))
             (replies hello) [("psid", PStr "cookie"); ("messages", PInt 7)]).
    + reflexivity.
    + exists "<stdin>". split; reflexivity.
    + discriminate.
    + discriminate.
    + discriminate.
  - apply (non_list_messages_are_uncaught
             (scripted_runtime (Ok request_keyed_messages) (Some (replies hello)))
             (replies hello)
             [("psid", PStr "cookie"); ("messages", PDict [("content", PStr "a")])]).
    + reflexivity.
    + exists "<stdin>". split; reflexivity.
    + discriminate.
    + discriminate.
    + discriminate.
Defined.

(** ** How prompts compose *)

Lemma append_assoc (a b c : string) : (a ++ b) ++ c = a ++ (b ++ c).
Proof. induction a as [|x a IH]; simpl; [reflexivity | now rewrite IH]. Qed.

Lemma concat_app (sep : string) (a b : list string) :
  a <> [] -> b <> [] ->
  String.concat sep (a ++ b) = String.concat sep a ++ sep ++ String.concat sep b.
Proof.
  intros Ha Hb. induction a as [|x a IH]; [now elim Ha|].
  destruct a as [|y a].
  - destruct b as [|z b]; [now elim Hb | reflexivity].
  - change (x ++ sep ++ String.concat sep ((y :: a) ++ b) =
            (x ++ sep ++ String.concat sep (y :: a)) ++ sep ++ String.concat sep b).
    rewrite IH by discriminate. now rewrite !append_assoc.
Qed.

Lemma contents_app (l1 l2 : list pyval) :
  contents (l1 ++ l2) = (contents l1 ++ contents l2)%list.
Proof.
  induction l1 as [|msg rest IH]; [reflexivity|].
  simpl. destruct (content_of msg); simpl; now rewrite IH.
Qed.

Lemma all_dicts_app (l1 l2 : list pyval) :
  all_dicts l1 -> all_dicts l2 -> all_dicts (l1 ++ l2).
Proof. intros H1 H2. apply Forall_app. now split. Qed.

(** X6. Joining two conversations joins their prompts: when each part has some
    content, the prompt of [l1 ++ l2] is the prompt of [l1], a newline, and
    the prompt of [l2]. *)
Theorem prompt_of_append (rt : runtime) (l1 l2 : list pyval) (log : list event) :
  all_dicts l1 ->
  all_dicts l2 ->
  contents l1 <> [] ->
  contents l2 <> [] ->
  build_prompt rt (PList (l1 ++ l2)) log =
  (Normal (joined_contents rt l1 ++ newline ++ joined_contents rt l2), log).
Proof.
  intros H1 H2 Hc1 Hc2.
  rewrite (build_prompt_dicts rt (l1 ++ l2) log (all_dicts_app l1 l2 H1 H2)).
  unfold joined_contents. rewrite contents_app, map_app, concat_app.
  - reflexivity.
  - intros E. apply map_eq_nil in E. now elim Hc1.
  - intros E. apply map_eq_nil in E. now elim Hc2.
Qed.

Lemma prompt_of_append_witness :
  build_prompt (scripted_runtime (Ok request_ab) None)
    (PList ([msg_a; msg_empty] ++ [msg_b; msg_a])) [] =
  (Normal ("a" ++ newline ++ "b" ++ newline ++ "a"), []).
Proof.
  apply (prompt_of_append (scripted_runtime (Ok request_ab) None)
           [msg_a; msg_empty] [msg_b; msg_a] []).
  - repeat constructor.
  - repeat constructor.
  - discriminate.
  - discriminate.
Defined.

(** X7. The prompt depends on the messages only through the contents that pass
    the truth test: other keys of a message (its role, say) and messages
    without content make no difference. *)
Theorem prompt_depends_on_contents_only (rt : runtime) (l1 l2 : list pyval)
    (log : list event) :
  all_dicts l1 ->
  all_dicts l2 ->
  contents l1 = contents l2 ->
  build_prompt rt (PList l1) log = build_prompt rt (PList l2) log.
Proof.
  intros H1 H2 Hc.
  rewrite (build_prompt_dicts rt l1 log H1), (build_prompt_dicts rt l2 log H2).
  unfold joined_contents. now rewrite Hc.
Qed.

Lemma prompt_depends_on_contents_only_witness :
  build_prompt (scripted_runtime (Ok request_ab) None)
    (PList [PDict [("role", PStr "system"); ("content", PStr "a")];
            PDict [("role", PStr "user"); ("content", PNone)];
            PDict [("content", PStr "b"); ("role", PStr "user")]]) [] =
  build_prompt (scripted_runtime (Ok request_ab) None) (PList [msg_a; msg_b]) [].
Proof.
  apply (prompt_depends_on_contents_only (scripted_runtime (Ok request_ab) None)
           [PDict [("role", PStr "system"); ("content", PStr "a")];
            PDict [("role", PStr "user"); ("content", PNone)];
            PDict [("content", PStr "b"); ("role", PStr "user")]]
           [msg_a; msg_b] []).
  - repeat constructor.
  - repeat constructor.
  - reflexivity.
Defined.

Lemma string_of_int_nonempty (n : Z) :
  NilZero.string_of_int (Z.to_int n) <> "".
Proof.
  destruct (Z.to_int n) as [u|u]; simpl; [|discriminate].
  destruct u; discriminate.
Qed.

Lemma str_truthy_nonempty (rt : runtime) (v : pyval) :
  (forall f, float_repr rt f <> "") ->
  truthy v = true ->
  str (float_repr rt) (str_repr rt) v <> "".
Proof.
  intros Hf Ht. destruct v as [|b|n|f|s|l|d]; simpl.
  - discriminate Ht.
  - destruct b; discriminate.
  - apply string_of_int_nonempty.
  - apply Hf.
  - now apply truthy_str.
  - discriminate.
  - discriminate.
Qed.

Lemma contents_truthy (l : list pyval) :
  Forall (fun v => truthy v = true) (contents l).
Proof.
  induction l as [|msg rest IH]; [constructor|].
  simpl. destruct (content_of msg) as [v|] eqn:E; [|exact IH].
  constructor; [|exact IH].
  destruct msg; try discriminate E. simpl in E.
  destruct (lookup "content" d) as [w|]; [|discriminate E].
  destruct (truthy w) eqn:Hw; [|discriminate E]. now injection E as <-.
Qed.

Lemma concat_nonempty (sep x : string) (xs : list string) :
  x <> "" -> String.concat sep (x :: xs) <> "".
Proof.
  intros Hx. destruct xs as [|y ys]; [exact Hx|].
  change (x ++ sep ++ String.concat sep (y :: ys) <> "").
  destruct x; [now elim Hx | discriminate].
Qed.

(** X8. For a list of mappings the prompt is empty exactly when no message has
    content: as soon as one content passes the truth test its string form
    is not empty, so neither is the prompt.  (The one fact taken from the
    interpreter is that the [repr] of a float is never empty.) *)
Theorem prompt_empty_iff_no_content (rt : runtime) (l : list pyval) (log : list event) :
  (forall f, float_repr rt f <> "") ->
  all_dicts l ->
  build_prompt rt (PList l) log = (Normal "", log) <-> contents l = [].
Proof.
  intros Hf Hd. rewrite (build_prompt_dicts rt l log Hd). unfold joined_contents.
  split.
  - intros H. injection H as H.
    pose proof (contents_truthy l) as Ht.
    destruct (contents l) as [|v vs]; [reflexivity|].
    exfalso. inversion Ht as [|? ? Hv _]; subst.
    exact (concat_nonempty newline _ _ (str_truthy_nonempty rt v Hf Hv) H).
  - intros ->. reflexivity.
Qed.

Lemma prompt_empty_iff_no_content_witness :
  build_prompt (scripted_runtime (Ok request_no_content) None)
    (PList [msg_empty; PDict [("content", PInt 0)]]) [] = (Normal "", []) <->
  contents [msg_empty; PDict [("content", PInt 0)]] = [].
Proof.
  apply (prompt_empty_iff_no_content (scripted_runtime (Ok request_no_content) None)
           [msg_empty; PDict [("content", PInt 0)]] []).
  - discriminate.
  - repeat constructor.
Defined.

(** ** Every run *)

Lemma run_ending_cases (rt : runtime) : ending (run rt).
Proof.
  destruct (gemini_webapi rt) as [GeminiClient|] eqn:Hi.
  2: { rewrite (run_exited _ _ _ (script_import_fails rt Hi)). constructor. }
  assert (Hread : (exists e, read_raises rt e) \/ (exists params, receives rt params)).
  { unfold read_raises, receives.
    destruct (stdin_read rt) as [input_data|e] eqn:Hr.
    - destruct (json_loads rt input_data) as [params|e] eqn:Hl.
      + right. exists params, input_data. now split.
      + left. exists e. right. exists input_data. now split.
    - left. exists e. now left. }
  destruct Hread as [(e & Hr) | (params & Hr)].
  { rewrite (run_exited _ _ _ (script_read_raises rt GeminiClient e Hi Hr)).
    unfold read_failure. destruct (exn_type e =? "JSONDecodeError"); constructor. }
  pose proof (script_receives rt GeminiClient params Hi Hr) as Hs.
  destruct (is_dict params) eqn:Hd.
  2: { rewrite (serve_non_dict rt GeminiClient params Hd) in Hs.
       rewrite (run_raised _ _ _ Hs). constructor. now left. }
  destruct params as [| | | | | |d]; try discriminate Hd.
  destruct (truthy (field d "psid" PNone)) eqn:Hp.
  2: { rewrite (serve_missing_psid rt GeminiClient d Hp) in Hs.
       rewrite (run_exited _ _ _ Hs). constructor. }
  destruct (truthy (field d "messages" PNone)) eqn:Hm.
  2: { rewrite (serve_missing_messages rt GeminiClient d Hp Hm) in Hs.
       rewrite (run_exited _ _ _ Hs). constructor. }
  destruct (build_prompt_cases rt (field d "messages" PNone) [])
    as [(prompt & Hb) | (e & He & Hb)].
  2: { rewrite (serve_builder_raises rt GeminiClient d e Hp Hm Hb) in Hs.
       rewrite (run_raised _ _ _ Hs). now constructor. }
  destruct (string_dec prompt "") as [->|Hne].
  { rewrite (serve_empty_prompt rt GeminiClient d Hp Hm Hb) in Hs.
    rewrite (run_exited _ _ _ Hs). constructor. }
  assert (Ha : accepted rt d prompt) by (repeat split; assumption).
  destruct (GeminiClient (field d "psid" PNone)
              (or_ (field d "psidts" PNone) PNone) prompt
              (field d "model" (PStr "unspecified"))) as [r|e] eqn:Hc.
  - rewrite (serve_delegate_returns rt GeminiClient d prompt r Ha Hc) in Hs.
    rewrite (run_exited _ _ _ Hs). constructor.
  - rewrite (serve_delegate_raises rt GeminiClient d prompt e Ha Hc) in Hs.
    rewrite (run_exited _ _ _ Hs). constructor.
Qed.

(** X10. Within the environments a [runtime] describes (the import succeeds
    or raises [ImportError]; reading and parsing return or raise an
    [Exception]; the client returns a response with a [str] text and a
    JSON-valued model, or raises an [Exception]), every run, on every
    input, ends in one of four ways: one failure object on stderr and no
    call; a traceback of an [AttributeError] or [TypeError] and no call; one
    call and then one failure object on stderr; one call and then the
    success object on stdout.  Only the last has status 0, the others have
    status 1. *)
Theorem every_run_ends_one_of_four_ways (rt : runtime) : ending (run rt).
Proof. apply run_ending_cases. Qed.

(** X11. The client is called at most once in any run: there is no retry on any
    path. *)
Theorem at_most_one_call (rt : runtime) :
  (List.length (invocations (events (run rt))) <= 1)%nat.
Proof.
  destruct (run_ending_cases rt); simpl; lia.
Qed.

(** X12. The status is 0 or 1, and it is 0 exactly when the success object, and
    nothing else, was written; with status 1 stdout stays empty. *)
Theorem status_tells_success (rt : runtime) :
  (exit_code (run rt) = 0%Z \/ exit_code (run rt) = 1%Z) /\
  (exit_code (run rt) = 0%Z <-> emits_success (run rt)) /\
  (exit_code (run rt) = 1%Z -> written Stdout (events (run rt)) = []).
Proof.
  destruct (run_ending_cases rt); simpl.
  - split; [now right|]. split; [|reflexivity].
    split; [discriminate|]. intros (t & mu & Hs & _). discriminate Hs.
  - split; [now right|]. split; [|reflexivity].
    split; [discriminate|]. intros (t & mu & Hs & _). discriminate Hs.
  - split; [now right|]. split; [|reflexivity].
    split; [discriminate|]. intros (t & mu & Hs & _). discriminate Hs.
  - split; [now left|]. split; [|discriminate].
    split; [|reflexivity]. intros _. eexists _, _. split; reflexivity.
Qed.

(** X13. With a client that returns a response with a [str] text and a
    JSON-valued model or raises an [Exception], the exceptions the script
    leaves uncaught (the [AttributeError] and [TypeError] of a misshapen
    request) all come before the call: once the client has been called, the
    run ends with exactly one JSON object on the stream that matches its
    status. *)
Theorem call_then_object (rt : runtime) :
  invocations (events (run rt)) <> [] ->
  single_object (run rt).
Proof.
  intros Hcall. destruct (run_ending_cases rt); simpl in Hcall.
  - now elim Hcall.
  - now elim Hcall.
  - now eapply single_object_failure.
  - now eapply single_object_success.
Qed.

Lemma call_then_object_witness :
  single_object (run (scripted_runtime (Ok request_ab) (Some (fails_with auth_error)))).
Proof.
  apply (call_then_object
           (scripted_runtime (Ok request_ab) (Some (fails_with auth_error)))).
  discriminate.
Defined.

(** ** What reaches the client *)

Lemma invocations_traceback (log : list event) (e : py_exn) :
  invocations (log ++ [Traceback e]) = invocations log.
Proof.
  induction log as [|ev rest IH]; [reflexivity|].
  destruct ev; simpl; now rewrite IH.
Qed.

Lemma invocations_run (rt : runtime) (sig : signal unit) (log : list event) :
  script rt [] = (sig, log) ->
  invocations (events (run rt)) = invocations log.
Proof.
  intros H. unfold run. rewrite H.
  destruct sig; simpl; try reflexivity. apply invocations_traceback.
Qed.

Lemma serve_call_arguments (rt : runtime) (GeminiClient : client)
    (d : list (string * pyval)) (sig : signal unit) (log : list event) :
  serve rt GeminiClient (PDict d) [] = (sig, log) ->
  invocations log = [] \/
  exists prompt,
    accepted rt d prompt /\
    invocations log =
    [(field d "psid" PNone, or_ (field d "psidts" PNone) PNone, prompt,
      field d "model" (PStr "unspecified"))].
Proof.
  intros Hs.
  destruct (truthy (field d "psid" PNone)) eqn:Hp.
  2: { rewrite (serve_missing_psid rt GeminiClient d Hp) in Hs.
       injection Hs as _ <-. now left. }
  destruct (truthy (field d "messages" PNone)) eqn:Hm.
  2: { rewrite (serve_missing_messages rt GeminiClient d Hp Hm) in Hs.
       injection Hs as _ <-. now left. }
  destruct (build_prompt_cases rt (field d "messages" PNone) [])
    as [(prompt & Hb) | (e & He & Hb)].
  2: { rewrite (serve_builder_raises rt GeminiClient d e Hp Hm Hb) in Hs.
       injection Hs as _ <-. now left. }
  destruct (string_dec prompt "") as [->|Hne].
  { rewrite (serve_empty_prompt rt GeminiClient d Hp Hm Hb) in Hs.
    injection Hs as _ <-. now left. }
  assert (Ha : accepted rt d prompt) by (repeat split; assumption).
  right. exists prompt. split; [exact Ha|].
  destruct (GeminiClient (field d "psid" PNone)
              (or_ (field d "psidts" PNone) PNone) prompt
              (field d "model" (PStr "unspecified"))) as [r|e] eqn:Hc.
  - rewrite (serve_delegate_returns rt GeminiClient d prompt r Ha Hc) in Hs.
    injection Hs as _ <-. reflexivity.
  - rewrite (serve_delegate_raises rt GeminiClient d prompt e Ha Hc) in Hs.
    injection Hs as _ <-. reflexivity.
Qed.

(** X14. Whenever the client is called, it is called with a [psid] that passed
    the truth test, with the request's model (or "unspecified"), with a
    secondary credential that is [None] or truthy, and with the non-empty
    prompt the builder returned for the request's messages. *)
Theorem call_carries_validated_request (rt : runtime) (d : list (string * pyval))
    (secure_psid secure_psidts : pyval) (user_prompt : string) (model_name : pyval) :
  receives rt (PDict d) ->
  In (secure_psid, secure_psidts, user_prompt, model_name)
     (invocations (events (run rt))) ->
  secure_psid = field d "psid" PNone /\
  truthy secure_psid = true /\
  (secure_psidts = PNone \/
   secure_psidts = field d "psidts" PNone /\ truthy secure_psidts = true) /\
  model_name = field d "model" (PStr "unspecified") /\
  user_prompt <> "" /\
  build_prompt rt (field d "messages" PNone) [] = (Normal user_prompt, []).
Proof.
  intros Hr Hin.
  destruct (gemini_webapi rt) as [GeminiClient|] eqn:Hi.
  2: { rewrite (run_exited _ _ _ (script_import_fails rt Hi)) in Hin. now elim Hin. }
  pose proof (script_receives rt GeminiClient (PDict d) Hi Hr) as Hs.
  destruct (serve rt GeminiClient (PDict d) []) as [sig log] eqn:Hserve.
  rewrite (invocations_run rt sig log Hs) in Hin.
  destruct (serve_call_arguments rt GeminiClient d sig log Hserve)
    as [Hnone | (prompt & (Hp & Hm & Hb & Hne) & Hone)].
  { rewrite Hnone in Hin. now elim Hin. }
  rewrite Hone in Hin. destruct Hin as [Heq | []].
  injection Heq as <- <- <- <-.
  split; [reflexivity|]. split; [exact Hp|]. split.
  - unfold or_. destruct (truthy (field d "psidts" PNone)) eqn:Ht.
    + right. now split.
    + now left.
  - split; [reflexivity|]. now split.
Qed.

Lemma call_carries_validated_request_witness :
  PStr "cookie" = PStr "cookie" /\
  truthy (PStr "cookie") = true /\
  (PNone = PNone \/ PNone = PNone /\ truthy PNone = true) /\
  PStr "gemini-pro" = PStr "gemini-pro" /\
  "a" ++ newline ++ "b" <> "" /\
  build_prompt (scripted_runtime (Ok request_ab) (Some (replies hello)))
    (PList [msg_a; msg_empty; msg_b]) [] = (Normal ("a" ++ newline ++ "b"), []).
Proof.
  apply (call_carries_validated_request
           (scripted_runtime (Ok request_ab) (Some (replies hello)))
           [("psid", PStr "cookie"); ("model", PStr "gemini-pro");
            ("messages", PList [msg_a; msg_empty; msg_b])]
           (PStr "cookie") PNone ("a" ++ newline ++ "b") (PStr "gemini-pro")).
  - exists "<stdin>". split; reflexivity.
  - left. reflexivity.
Defined.

Lemma field_same_lookup (d1 d2 : list (string * pyval)) (key : string) (default : pyval) :
  lookup key d1 = lookup key d2 ->
  field d1 key default = field d2 key default.
Proof. intros H. unfold field. now rewrite H. Qed.

Lemma serve_same_fields (rt : runtime) (GeminiClient : client)
    (d1 d2 : list (string * pyval)) :
  same_fields d1 d2 ->
  serve rt GeminiClient (PDict d1) [] = serve rt GeminiClient (PDict d2) [].
Proof.
  intros (Hp & Hmo & Hme & Hor). unfold serve, call_gemini. rewrite !get_dict.
  rewrite (field_same_lookup d1 d2 "psid" PNone Hp).
  rewrite (field_same_lookup d1 d2 "model" (PStr "unspecified") Hmo).
  rewrite (field_same_lookup d1 d2 "messages" PNone Hme).
  step. rewrite Hor. reflexivity.
Qed.

(** X15. The script looks at four keys and nothing else.  Two requests that give
    the same [psid], [model] and [messages], and the same [psidts or None],
    run identically in the same environment: key order, unknown keys and
    the choice among falsy values of [psidts] (absent, [null], [""], [0],
    [false]) are not observable. *)
Theorem only_four_fields_matter (rt1 rt2 : runtime) (d1 d2 : list (string * pyval)) :
  same_environment rt1 rt2 ->
  receives rt1 (PDict d1) ->
  receives rt2 (PDict d2) ->
  same_fields d1 d2 ->
  run rt1 = run rt2.
Proof.
  intros Henv Hr1 Hr2 Hsame.
  destruct (gemini_webapi rt1) as [GeminiClient|] eqn:Hi1.
  - assert (Hi2 : gemini_webapi rt2 = Some GeminiClient).
    { destruct Henv as (_ & _ & <-). exact Hi1. }
    pose proof (script_receives rt1 GeminiClient (PDict d1) Hi1 Hr1) as Hs1.
    pose proof (script_receives rt2 GeminiClient (PDict d2) Hi2 Hr2) as Hs2.
    rewrite <- (serve_same_environment rt1 rt2 GeminiClient (PDict d2) [] Henv) in Hs2.
    rewrite <- (serve_same_fields rt1 GeminiClient d1 d2 Hsame) in Hs2.
    unfold run. now rewrite Hs1, Hs2.
  - assert (Hi2 : gemini_webapi rt2 = None).
    { destruct Henv as (_ & _ & <-). exact Hi1. }
    rewrite (run_exited _ _ _ (script_import_fails rt1 Hi1)).
    now rewrite (run_exited _ _ _ (script_import_fails rt2 Hi2)).
Qed.

Lemma only_four_fields_matter_witness :
  run (scripted_runtime (Ok request_ab) (Some (replies hello))) =
  run (scripted_runtime (Ok request_ab_reordered) (Some (replies hello))).
Proof.
  apply (only_four_fields_matter
           (scripted_runtime (Ok request_ab) (Some (replies hello)))
           (scripted_runtime (Ok request_ab_reordered) (Some (replies hello)))
           [("psid", PStr "cookie"); ("model", PStr "gemini-pro");
            ("messages", PList [msg_a; msg_empty; msg_b])]
           [("messages", PList [msg_a; msg_empty; msg_b]); ("stream", PBool true);
            ("psidts", PInt 0); ("model", PStr "gemini-pro"); ("psid", PStr "cookie")]).
  - repeat split.
  - exists "<stdin>". split; reflexivity.
  - exists "<stdin>". split; reflexivity.
  - repeat split.
Defined.

Lemma joined_contents_nonempty (rt : runtime) (l : list pyval) :
  (forall f, float_repr rt f <> "") ->
  contents l <> [] ->
  joined_contents rt l <> "".
Proof.
  intros Hf Hc. unfold joined_contents.
  pose proof (contents_truthy l) as Ht.
  destruct (contents l) as [|v vs]; [now elim Hc|].
  inversion Ht as [|? ? Hv _]; subst.
  exact (concat_nonempty newline _ _ (str_truthy_nonempty rt v Hf Hv)).
Qed.

(** X16. End to end, for a well-formed request: the client is called exactly
    when some message has content, and then exactly once, with the joined
    contents as the prompt; when no message has content the request is
    rejected with the non-empty-prompt failure and no call is made. *)
Theorem well_formed_request_reaches_client_iff_content (rt : runtime)
    (GeminiClient : client) (d : list (string * pyval)) (l : list pyval) :
  (forall f, float_repr rt f <> "") ->
  gemini_webapi rt = Some GeminiClient ->
  receives rt (PDict d) ->
  truthy (field d "psid" PNone) = true ->
  lookup "messages" d = Some (PList l) ->
  l <> [] ->
  all_dicts l ->
  (contents l = [] ->
   run rt =
   Finished
     [Printed Stderr
        (failure "ValueError" "Could not construct a non-empty prompt from messages.")]
     1) /\
  (contents l <> [] ->
   invocations (events (run rt)) =
   [(field d "psid" PNone, or_ (field d "psidts" PNone) PNone,
     joined_contents rt l, field d "model" (PStr "unspecified"))]).
Proof.
  intros Hf Hi Hr Hp Hl Hne Hd.
  pose proof (script_receives rt GeminiClient (PDict d) Hi Hr) as Hs.
  assert (Hfield : field d "messages" PNone = PList l) by (unfold field; now rewrite Hl).
  assert (Hm : truthy (field d "messages" PNone) = true).
  { rewrite Hfield. destruct l; [now elim Hne | reflexivity]. }
  assert (Hb : build_prompt rt (field d "messages" PNone) [] =
               (Normal (joined_contents rt l), [])).
  { rewrite Hfield. now apply build_prompt_dicts. }
  split; intros Hc.
  - assert (He : joined_contents rt l = "") by (unfold joined_contents; now rewrite Hc).
    rewrite He in Hb.
    rewrite (serve_empty_prompt rt GeminiClient d Hp Hm Hb) in Hs.
    exact (run_exited _ _ _ Hs).
  - assert (Ha : accepted rt d (joined_contents rt l)).
    { repeat split; try assumption. now apply joined_contents_nonempty. }
    destruct (GeminiClient (field d "psid" PNone)
                (or_ (field d "psidts" PNone) PNone) (joined_contents rt l)
                (field d "model" (PStr "unspecified"))) as [r|e] eqn:Hcall.
    + rewrite (serve_delegate_returns rt GeminiClient d _ r Ha Hcall) in Hs.
      now rewrite (run_exited _ _ _ Hs).
    + rewrite (serve_delegate_raises rt GeminiClient d _ e Ha Hcall) in Hs.
      now rewrite (run_exited _ _ _ Hs).
Qed.

Lemma well_formed_request_reaches_client_iff_content_witness :
  (contents [msg_a; msg_empty; msg_b] = [] ->
   run (scripted_runtime (Ok request_ab) (Some (replies hello))) =
   Finished
     [Printed Stderr
        (failure "ValueError" "Could not construct a non-empty prompt from messages.")]
     1) /\
  (contents [msg_a; msg_empty; msg_b] <> [] ->
   invocations (events (run (scripted_runtime (Ok request_ab) (Some (replies hello))))) =
   [(PStr "cookie", PNone, "a" ++ newline ++ "b", PStr "gemini-pro")]).
Proof.
  apply (well_formed_request_reaches_client_iff_content
           (scripted_runtime (Ok request_ab) (Some (replies hello)))
           (replies hello)
           [("psid", PStr "cookie"); ("model", PStr "gemini-pro");
            ("messages", PList [msg_a; msg_empty; msg_b])]
           [msg_a; msg_empty; msg_b]).
  - discriminate.
  - reflexivity.
  - exists "<stdin>". split; reflexivity.
  - reflexivity.
  - reflexivity.
  - discriminate.
  - repeat constructor.
Defined.
